(** * Serverpluschat: the connection registry and message router of server.js

    A shallow embedding of [src/server.js]: the [clients] map, the
    [clientCounter], the handlers installed by [wss.on('connection')]
    (message, close, pong, error), [broadcastMessage] and the heartbeat
    timer, followed by the properties of the registry, the router and the
    liveness monitor.

    Conventions of the embedding.
    - A [handle] names one [ws] object.  Every connection allocates exactly
      one [ws] object and one [clientInfo] object, so both live in one heap
      cell, and a handle is the index of the cell (allocation order).
    - The JavaScript [Map] [clients] keeps its keys in insertion order; it
      is the list of its keys.  The value bound to key [ws] is a reference
      to the [clientInfo] of the same cell, the very object the handlers of
      that connection close over: a rename through the closure is seen
      through the map, as in the source.
    - What the server asks of the transport ([ws.send], [ws.ping],
      [ws.terminate]) is recorded as a list of [Action]s, in call order.
      [JSON.stringify] is left symbolic: a sent message is the JSON value
      that is serialised.
    - Each event carries the clock reading [now]; every [new Date()] made
      while one event is handled reads that value.
    - [ws.terminate()] only marks the socket [CLOSING]; the ['close'] event
      that follows is an event of its own, delivered by the event loop.
    - A string is the UTF-8 encoding of a JavaScript string without lone
      surrogates: equality, emptiness and concatenation are those of the
      bytes, and [trim] strips every white-space character and line
      terminator of ECMAScript, in its encoded form.
    - A JSON number is an integer-valued Number (the value [JSON.parse]
      returns), printed as [Number::toString] prints it; the keys of a
      parsed object are distinct. *)

From Stdlib Require Import ZArith Ascii String Sorted.
From stdpp Require Import base list strings pretty.

Local Open Scope string_scope.
Local Open Scope list_scope.
Local Open Scope nat_scope.
Local Set Warnings "-register-all".

(** ** JSON values and the JavaScript operations the router applies to them *)

Inductive json : Type :=
| JNull
| JBool (b : bool)
| JNum (z : Z)
| JStr (s : string)
| JArr (items : list json)
| JObj (fields : list (string * json)).

(** An object literal: its properties in creation order. *)
Definition object := list (string * json).

Definition json_is_null (v : json) : bool :=
  match v with JNull => true | _ => false end.

(** A property read [o.k] on an object; [None] is [undefined]. *)
Fixpoint obj_get (k : string) (o : object) : option json :=
  match o with
  | [] => None
  | (k', v) :: r => if String.eqb k k' then Some v else obj_get k r
  end.

(** The outcome of an expression that may throw. *)
Inductive Res (A : Type) := Ok (a : A) | Throw.
Arguments Ok {A} a.
Arguments Throw {A}.

(** The Number nearest to the natural number [m]: 53 significant bits,
    ties to even. *)
Definition to_double (m : Z) : Z :=
  if (m <? 2 ^ 53)%Z then m
  else
    let sh := (Z.log2 m - 52)%Z in
    let q := Z.shiftr m sh in
    let rem := (m - Z.shiftl q sh)%Z in
    let half := Z.shiftl 1 (sh - 1) in
    let q' := if (half <? rem)%Z || ((rem =? half)%Z && Z.odd q)
              then (q + 1)%Z else q in
    Z.shiftl q' sh.

Definition digits (v : Z) : nat := String.length (pretty v).

(** The shortest decimal [s * 10^j] that reads back as the Number [v],
    looked for from the fewest digits up; of two with as many digits the
    one nearer to [v], and the even one on a tie. *)
Fixpoint shortest (fuel : nat) (v j : Z) : Z * Z :=
  match fuel with
  | O => (v, 0%Z)
  | S f =>
      let p := (10 ^ j)%Z in
      let lo := (v / p)%Z in
      let hi := (lo + 1)%Z in
      let ok_lo := (0 <? lo)%Z && (to_double (lo * p) =? v)%Z in
      let ok_hi := (to_double (hi * p) =? v)%Z in
      if ok_lo && ok_hi then
        let dlo := (v - lo * p)%Z in
        let dhi := (hi * p - v)%Z in
        if (dlo <? dhi)%Z then (lo, j)
        else if (dhi <? dlo)%Z then (hi, j)
        else if Z.even lo then (lo, j) else (hi, j)
      else if ok_lo then (lo, j)
      else if ok_hi then (hi, j)
      else shortest f v (j - 1)
  end.

Fixpoint zeros (n : nat) : string :=
  match n with
  | O => ""
  | S k => String "0" (zeros k)
  end.

(** [Number::toString] on an integer-valued Number: plain digits up to 21
    of them (the shortest that read back, then zeros), the exponent form
    beyond.  An integer that is not a Number is rounded to the nearest
    one first, as [JSON.parse] does, to [Infinity] from 2^1024 on. *)
Definition Number_toString (z : Z) : string :=
  let v := to_double (Z.abs z) in
  let sign := if (z <? 0)%Z then "-" else "" in
  if (v <? 2 ^ 53)%Z then pretty z
  else if (2 ^ 1024 <=? v)%Z then sign +:+ "Infinity"
  else
    let '(s, j) := shortest (S (digits v)) v (Z.of_nat (digits v)) in
    let n := Z.to_nat j + digits s in
    if Nat.leb n 21 then sign +:+ pretty s +:+ zeros (Z.to_nat j)
    else
      match pretty s with
      | String d EmptyString => sign +:+ String d "e+" +:+ pretty (n - 1)
      | String d r => sign +:+ String d ("." +:+ r) +:+ "e+" +:+ pretty (n - 1)
      | EmptyString => sign
      end.

(** [String(v)], as a template literal applies it.  An object prints as
    [[object Object]] through the inherited [toString]; an own [toString]
    property, which a parsed value cannot make callable, hides it and the
    conversion throws a [TypeError].  An array joins its elements with
    commas, [null] printing as the empty string. *)
Fixpoint js_toString (v : json) : Res string :=
  match v with
  | JNull => Ok "null"
  | JBool true => Ok "true"
  | JBool false => Ok "false"
  | JNum z => Ok (Number_toString z)
  | JStr s => Ok s
  | JArr items =>
      (fix join (l : list json) : Res string :=
         match l with
         | [] => Ok ""
         | x :: r =>
             match (if json_is_null x then Ok "" else js_toString x) with
             | Throw => Throw
             | Ok e =>
                 match r with
                 | [] => Ok e
                 | _ :: _ =>
                     match join r with
                     | Throw => Throw
                     | Ok t => Ok (e +:+ "," +:+ t)
                     end
                 end
             end
         end) items
  | JObj o =>
      match obj_get "toString" o with
      | Some _ => Throw
      | None => Ok "[object Object]"
      end
  end.

(** [`${v}`] for a value that may be [undefined]. *)
Definition template (v : option json) : Res string :=
  match v with
  | None => Ok "undefined"
  | Some x => js_toString x
  end.

(** A property write [o.k = v]: in place when the key exists, appended
    otherwise. *)
Fixpoint obj_set (k : string) (v : json) (o : object) : object :=
  match o with
  | [] => [(k, v)]
  | (k', v') :: r =>
      if String.eqb k k' then (k', v) :: r else (k', v') :: obj_set k v r
  end.

(** JavaScript truthiness of a value that may be [undefined]. *)
Definition truthy (v : option json) : bool :=
  match v with
  | None => false
  | Some JNull => false
  | Some (JBool b) => b
  | Some (JNum z) => negb (z =? 0)%Z
  | Some (JStr s) => negb (String.eqb s "")
  | Some (JArr _) => true
  | Some (JObj _) => true
  end.

(** [v === s] for a string literal [s], as the [switch] compares. *)
Definition is_str (v : option json) (s : string) : bool :=
  match v with
  | Some (JStr s') => String.eqb s' s
  | _ => false
  end.

(** [n === v] for a number [n] held by the server. *)
Definition strict_eq_num (n : nat) (v : option json) : bool :=
  match v with
  | Some (JNum z) => (Z.of_nat n =? z)%Z
  | _ => false
  end.

(** The white space and line terminators of ECMAScript, UTF-8 encoded:
    one byte for U+0009 to U+000D and U+0020; two for U+00A0; three for
    U+1680, U+2000 to U+200A, U+2028, U+2029, U+202F, U+205F, U+3000 and
    U+FEFF. *)
Definition white1 (a : ascii) : bool :=
  let a := nat_of_ascii a in
  (Nat.leb 9 a && Nat.leb a 13) || Nat.eqb a 32.

Definition white2 (a b : ascii) : bool :=
  Nat.eqb (nat_of_ascii a) 194 && Nat.eqb (nat_of_ascii b) 160.

Definition white3 (a b c : ascii) : bool :=
  let a := nat_of_ascii a in
  let b := nat_of_ascii b in
  let c := nat_of_ascii c in
  (Nat.eqb a 225 && Nat.eqb b 154 && Nat.eqb c 128)
  || (Nat.eqb a 226 && Nat.eqb b 128
      && ((Nat.leb 128 c && Nat.leb c 138)
          || Nat.eqb c 168 || Nat.eqb c 169 || Nat.eqb c 175))
  || (Nat.eqb a 226 && Nat.eqb b 129 && Nat.eqb c 159)
  || (Nat.eqb a 227 && Nat.eqb b 128 && Nat.eqb c 128)
  || (Nat.eqb a 239 && Nat.eqb b 187 && Nat.eqb c 191).

(** [String.prototype.trimStart] *)
Fixpoint trimStart (s : string) : string :=
  match s with
  | EmptyString => EmptyString
  | String a r1 =>
      if white1 a then trimStart r1
      else
        match r1 with
        | String b r2 =>
            if white2 a b then trimStart r2
            else
              match r2 with
              | String c r3 => if white3 a b c then trimStart r3 else s
              | EmptyString => s
              end
        | EmptyString => s
        end
  end.

(** A string of white space only. *)
Definition all_white (s : string) : bool :=
  match trimStart s with
  | EmptyString => true
  | String _ _ => false
  end.

(** [String.prototype.trimEnd]: the string without its longest suffix of
    white space. *)
Fixpoint trimEnd (s : string) : string :=
  match s with
  | EmptyString => EmptyString
  | String c r => if all_white s then EmptyString else String c (trimEnd r)
  end.

(** [String.prototype.trim] *)
Definition trim (s : string) : string := trimEnd (trimStart s).

(** The string after its first character, when that is white space: one
    round of [trimStart]. *)
Definition strip (s : string) : option string :=
  match s with
  | EmptyString => None
  | String a r1 =>
      if white1 a then Some r1
      else
        match r1 with
        | String b r2 =>
            if white2 a b then Some r2
            else
              match r2 with
              | String c r3 => if white3 a b c then Some r3 else None
              | EmptyString => None
              end
        | EmptyString => None
        end
  end.

(** U+00A0, the no-break space, and U+2003, the em space. *)
Definition nbsp : string := String "194" (String "160" "").
Definition em_space : string := String "226" (String "128" (String "131" "")).

(** ** Sockets, client records and the server state *)

Definition handle := nat.

(** [ws.readyState] *)
Inductive ReadyState := CONNECTING | OPEN | CLOSING | CLOSED.

Global Instance ReadyState_eq_dec : EqDecision ReadyState.
Proof. solve_decision. Defined.

(** The [clientInfo] object literal of the connection handler. *)
Record ClientInfo := mkClientInfo {
  id : nat;
  ws : handle;
  ip : string;
  connectedAt : string;
  username : string;
  isAlive : bool
}.

(** One connection: the fields of its [ws] object the server reads or
    writes, and the [clientInfo] its handlers close over.  [ws_isAlive] is
    the property [ws.isAlive]; [None] while it is not yet assigned. *)
Record Conn := mkConn {
  readyState : ReadyState;
  ws_isAlive : option bool;
  clientInfo : ClientInfo
}.

Global Instance Conn_inhabited : Inhabited Conn :=
  populate (mkConn CLOSED None (mkClientInfo 0 0 "" "" "" false)).

Record World := mkWorld {
  heap : list Conn;
  clients : list handle;
  clientCounter : nat
}.

(** Module load: [clients = new Map()], [clientCounter = 0]. *)
Definition initial : World := mkWorld [] [] 0.

Definition conn (w : World) (h : handle) : Conn := heap w !!! h.

Definition with_heap (f : list Conn → list Conn) (w : World) : World :=
  mkWorld (f (heap w)) (clients w) (clientCounter w).

Definition set_readyState (r : ReadyState) (c : Conn) : Conn :=
  mkConn r (ws_isAlive c) (clientInfo c).

Definition set_ws_isAlive (b : bool) (c : Conn) : Conn :=
  mkConn (readyState c) (Some b) (clientInfo c).

Definition set_username (u : string) (c : Conn) : Conn :=
  let i := clientInfo c in
  mkConn (readyState c) (ws_isAlive c)
    (mkClientInfo (id i) (ws i) (ip i) (connectedAt i) u (isAlive i)).

(** [clients.set(k, _)] and [clients.delete(k)] on the key list. *)
Definition map_set (k : handle) (ks : list handle) : list handle :=
  if decide (k ∈ ks) then ks else ks ++ [k].

Definition map_delete (k : handle) (ks : list handle) : list handle :=
  filter (λ k', k' ≠ k) ks.

(** ** Effects: state, the actions asked of the transport, exceptions *)

Inductive Action :=
| Send (h : handle) (m : json)
| Ping (h : handle)
| Terminate (h : handle).

Definition M (A : Type) : Type := World → Res A * World * list Action.

Definition ret {A} (a : A) : M A := λ w, (Ok a, w, []).

Definition bind {A B} (m : M A) (f : A → M B) : M B := λ w,
  match m w with
  | (Ok a, w1, o1) => let '(r, w2, o2) := f a w1 in (r, w2, o1 ++ o2)
  | (Throw, w1, o1) => (Throw, w1, o1)
  end.

(** [try { m } catch (error) { h }] *)
Definition try_catch {A} (m : M A) (h : M A) : M A := λ w,
  match m w with
  | (Ok a, w1, o1) => (Ok a, w1, o1)
  | (Throw, w1, o1) => let '(r, w2, o2) := h w1 in (r, w2, o1 ++ o2)
  end.

Declare Scope js_scope.
Delimit Scope js_scope with js.
Bind Scope js_scope with M.
Notation "x <- m ;; k" := (bind m (λ x, k))
  (at level 100, m at next level, k at level 200, right associativity,
   only parsing) : js_scope.
Notation "m ;; k" := (bind m (λ _, k))
  (at level 100, k at level 200, right associativity, only parsing) : js_scope.
Local Open Scope js_scope.

Definition throw {A} : M A := λ w, (Throw, w, []).
Definition gets {A} (f : World → A) : M A := λ w, (Ok (f w), w, []).
Definition modify (f : World → World) : M unit := λ w, (Ok tt, f w, []).
Definition emit (a : Action) : M unit := λ w, (Ok tt, w, [a]).
Definition lift {A} (r : Res A) : M A := λ w, (r, w, []).

Definition when (b : bool) (m : M unit) : M unit := if b then m else ret tt.

(** [l.forEach(f)] *)
Fixpoint forEach {A} (l : list A) (f : A → M unit) : M unit :=
  match l with
  | [] => ret tt
  | x :: r => f x ;; forEach r f
  end.

(** The world and the actions a computation leaves behind. *)
Definition exec {A} (m : M A) (w : World) : World * list Action :=
  let '(_, w', o) := m w in (w', o).

(** ** The transport: what [ws.send], [ws.ping] and [ws.terminate] do *)

Definition ws_send (h : handle) (m : json) : M unit := emit (Send h m).

Definition ws_ping (h : handle) : M unit := emit (Ping h).

(** [ws.terminate()] destroys the socket: a socket that is not yet closed
    becomes [CLOSING]; its ['close'] event is emitted later, by the event
    loop (see [step]). *)
Definition ws_terminate (h : handle) : M unit :=
  emit (Terminate h) ;;
  modify (with_heap (alter (λ c,
    if decide (readyState c = CLOSED) then c else set_readyState CLOSING c) h)).

(** ** server.js *)

Definition dquote : string := String "034"%char EmptyString.

(** A property of an object literal whose value may be [undefined]:
    [JSON.stringify] leaves such a property out. *)
Definition opt_field (k : string) (v : option json) : object :=
  match v with
  | Some x => [(k, x)]
  | None => []
  end.

(** [message.k]: a [TypeError] when [message] is [null]; [undefined] on an
    object without the key and on the other primitives and on arrays (the
    router reads [type], [username], [text] and [targetClientId] only). *)
Definition prop (message : json) (k : string) : Res (option json) :=
  match message with
  | JNull => Throw
  | JObj o => Ok (obj_get k o)
  | _ => Ok None
  end.

(** [v.trim()]: a [TypeError] unless [v] is a string. *)
Definition call_trim (v : option json) : Res string :=
  match v with
  | Some (JStr s) => Ok (trim s)
  | _ => Throw
  end.

(** [message.k && message.k.trim().length > 0] *)
Definition and_trim_nonempty (message : json) (k : string) : M bool :=
  v <- lift (prop message k) ;;
  if truthy v then
    v' <- lift (prop message k) ;;
    t <- lift (call_trim v') ;;
    ret (Nat.ltb 0 (String.length t))
  else ret false.

(** [function broadcastMessage(message, senderWs = null)] *)
Definition broadcastMessage (message : object) (senderWs : option handle)
  : M unit :=
  let messageData := JObj message in
  ks <- gets clients ;;
  forEach ks (λ ws,
    c <- gets (λ w, conn w ws) ;;
    when (bool_decide (readyState c = OPEN))
      (let plain :=
         match senderWs with
         | None => true
         | Some s => bool_decide (ws ≠ s)
         end in
       if plain then ws_send ws messageData
       else ws_send ws (JObj (obj_set "acknowledged" (JBool true) message)))).

(** [wss.on('connection', (ws, req) => ...)].  The [ws] object handed over
    by the transport is open and fresh; its cell is the next free one. *)
Definition on_connection (clientIp now : string) : M unit :=
  ws <- gets (λ w, length (heap w)) ;;
  n <- gets clientCounter ;;
  modify (λ w, mkWorld (heap w) (clients w) (S n)) ;;
  let clientId := S n in
  let connectionTime := now in
  let clientInfo :=
    mkClientInfo clientId ws clientIp connectionTime
      ("User_" +:+ pretty clientId) true in
  modify (with_heap (λ hp, hp ++ [mkConn OPEN None clientInfo])) ;;
  modify (λ w, mkWorld (heap w) (map_set ws (clients w)) (clientCounter w)) ;;
  ws_send ws (JObj [
    ("type", JStr "welcome");
    ("message", JStr ("Welcome to the WebSocket Server! Your ID: "
                      +:+ pretty clientId));
    ("clientId", JNum (Z.of_nat clientId));
    ("timestamp", JStr now)]) ;;
  broadcastMessage [
    ("type", JStr "user_joined");
    ("message", JStr (username clientInfo +:+ " joined the chat"));
    ("clientId", JNum (Z.of_nat clientId));
    ("timestamp", JStr now)] (Some ws) ;;
  modify (with_heap (alter (set_ws_isAlive true) ws)).

Inductive Payload :=
| Unparseable              (* [JSON.parse(data)] throws a [SyntaxError] *)
| Parsed (message : json). (* [JSON.parse(data)] returns [message] *)

Definition JSON_parse (data : Payload) : M json :=
  match data with
  | Unparseable => throw
  | Parsed message => ret message
  end.

Definition invalid_format (now : string) : json :=
  JObj [
    ("type", JStr "error");
    ("message", JStr "Invalid message format. Expected JSON.");
    ("timestamp", JStr now)].

(** [ws.on('message', (data) => ...)] of the connection [ws]. *)
Definition on_message (ws : handle) (data : Payload) (now : string) : M unit :=
  try_catch
    (message <- JSON_parse data ;;
     ty <- lift (prop message "type") ;;
     clientId <- gets (λ w, id (clientInfo (conn w ws))) ;;
     if is_str ty "set_username" then
       ok <- and_trim_nonempty message "username" ;;
       when ok
         (oldUsername <- gets (λ w, username (clientInfo (conn w ws))) ;;
          u <- lift (prop message "username") ;;
          t <- lift (call_trim u) ;;
          modify (with_heap (alter (set_username t) ws)) ;;
          newUsername <- gets (λ w, username (clientInfo (conn w ws))) ;;
          ws_send ws (JObj [
            ("type", JStr "username_changed");
            ("message", JStr ("Username changed from " +:+ dquote
                              +:+ oldUsername +:+ dquote +:+ " to "
                              +:+ dquote +:+ newUsername +:+ dquote));
            ("username", JStr newUsername);
            ("timestamp", JStr now)]) ;;
          broadcastMessage [
            ("type", JStr "user_renamed");
            ("message", JStr (oldUsername +:+ " changed username to "
                              +:+ newUsername));
            ("oldUsername", JStr oldUsername);
            ("newUsername", JStr newUsername);
            ("clientId", JNum (Z.of_nat clientId));
            ("timestamp", JStr now)] None)
     else if is_str ty "chat" then
       ok <- and_trim_nonempty message "text" ;;
       when ok
         (name <- gets (λ w, username (clientInfo (conn w ws))) ;;
          text <- lift (prop message "text") ;;
          broadcastMessage ([
            ("type", JStr "chat");
            ("username", JStr name);
            ("clientId", JNum (Z.of_nat clientId))]
            ++ opt_field "text" text
            ++ [("timestamp", JStr now)]) None)
     else if is_str ty "private_message" then
       target <- lift (prop message "targetClientId") ;;
       text <- lift (prop message "text") ;;
       when (truthy target && truthy text)
         (targetWs <- gets (λ w,
            List.find
              (λ ws_key, strict_eq_num (id (clientInfo (conn w ws_key))) target)
              (clients w)) ;;
          match targetWs with
          | Some targetWs =>
              name <- gets (λ w, username (clientInfo (conn w ws))) ;;
              ws_send targetWs (JObj ([
                ("type", JStr "private_message");
                ("from", JStr name);
                ("fromClientId", JNum (Z.of_nat clientId))]
                ++ opt_field "text" text
                ++ [("timestamp", JStr now)])) ;;
              to <- gets (λ w, username (clientInfo (conn w targetWs))) ;;
              ws_send ws (JObj ([
                ("type", JStr "private_message_sent");
                ("to", JStr to)]
                ++ opt_field "text" text
                ++ [("timestamp", JStr now)]))
          | None =>
              printed <- lift (template target) ;;
              ws_send ws (JObj [
                ("type", JStr "error");
                ("message", JStr ("Target client " +:+ printed
                                  +:+ " not found"));
                ("timestamp", JStr now)])
          end)
     else if is_str ty "get_users" then
       userList <- gets (λ w,
         map (λ k, let client := clientInfo (conn w k) in
                JObj [
                  ("id", JNum (Z.of_nat (id client)));
                  ("username", JStr (username client));
                  ("connectedAt", JStr (connectedAt client));
                  ("ip", JStr (ip client))])
             (clients w)) ;;
       size <- gets (λ w, length (clients w)) ;;
       ws_send ws (JObj [
         ("type", JStr "user_list");
         ("users", JArr userList);
         ("totalUsers", JNum (Z.of_nat size));
         ("timestamp", JStr now)])
     else if is_str ty "ping" then
       ws_send ws (JObj [
         ("type", JStr "pong");
         ("timestamp", JStr now)])
     else
       ws_send ws (JObj [
         ("type", JStr "echo");
         ("message", message);
         ("timestamp", JStr now)]))
    (ws_send ws (invalid_format now)).

(** [ws.on('close', () => ...)] of the connection [ws]. *)
Definition on_close (ws : handle) (disconnectTime : string) : M unit :=
  modify (λ w, mkWorld (heap w) (map_delete ws (clients w)) (clientCounter w)) ;;
  info <- gets (λ w, clientInfo (conn w ws)) ;;
  broadcastMessage [
    ("type", JStr "user_left");
    ("message", JStr (username info +:+ " left the chat"));
    ("clientId", JNum (Z.of_nat (id info)));
    ("timestamp", JStr disconnectTime)] None.

(** [ws.on('error', ...)] only logs. *)
Definition on_error (ws : handle) : M unit := ret tt.

(** [ws.on('pong', () => { ws.isAlive = true; })] *)
Definition on_pong (ws : handle) : M unit :=
  modify (with_heap (alter (set_ws_isAlive true) ws)).

(** The callback of [heartbeatInterval]. *)
Definition heartbeat : M unit :=
  ks <- gets clients ;;
  forEach ks (λ ws,
    c <- gets (λ w, conn w ws) ;;
    if bool_decide (ws_isAlive c = Some false) then ws_terminate ws
    else
      modify (with_heap (alter (set_ws_isAlive false) ws)) ;;
      ws_ping ws).

(** ** The event loop

    One event is handled to completion before the next.  The transport
    emits ['message'] and ['pong'] for an open socket only, and ['close']
    once per socket: it marks the socket [CLOSED] and then runs the close
    handler.  An event the transport cannot emit leaves the world as it
    is. *)

Inductive Event :=
| EConnection (clientIp now : string)
| EMessage (ws : handle) (data : Payload) (now : string)
| EClose (ws : handle) (now : string)
| EPong (ws : handle)
| EError (ws : handle)
| EHeartbeat.

Definition step (e : Event) (w : World) : World * list Action :=
  match e with
  | EConnection clientIp now => exec (on_connection clientIp now) w
  | EMessage h data now =>
      if decide (readyState (conn w h) = OPEN)
      then exec (on_message h data now) w else (w, [])
  | EClose h now =>
      if decide (readyState (conn w h) = CLOSED) then (w, [])
      else exec (modify (with_heap (alter (set_readyState CLOSED) h)) ;;
                 on_close h now) w
  | EPong h =>
      if decide (readyState (conn w h) = OPEN)
      then exec (on_pong h) w else (w, [])
  | EError h => exec (on_error h) w
  | EHeartbeat => exec heartbeat w
  end.

Fixpoint run (es : list Event) (w : World) : World :=
  match es with
  | [] => w
  | e :: r => run r (fst (step e w))
  end.

(** The worlds the server can be in: those some event sequence leads to
    from module load. *)
Definition reachable (w : World) : Prop := ∃ es, w = run es initial.

(** * Vocabulary of the specification *)

(** ** What a client is sent *)

(** The messages an action list sends to connection [k], in order. *)
Definition received (k : handle) (acts : list Action) : list json :=
  omap (λ a, match a with
             | Send h m => if decide (h = k) then Some m else None
             | _ => None
             end) acts.

(** The registered connections a broadcast reaches. *)
Definition open_clients (w : World) : list handle :=
  filter (λ k, readyState (conn w k) = OPEN) (clients w).

(** The message [broadcastMessage] sends to [k]. *)
Definition broadcast_copy (message : object) (senderWs : option handle)
    (k : handle) : json :=
  if decide (senderWs = Some k)
  then JObj (obj_set "acknowledged" (JBool true) message)
  else JObj message.

(** ** The registry invariant *)

(** In every world the server reaches: the counter is the number of
    connections accepted so far, the connection in cell [h] was given id
    [h + 1], and the registry holds, in order of arrival, exactly the
    connections whose ['close'] event has not been handled yet. *)
Record wf (w : World) : Prop := mk_wf {
  wf_counter : clientCounter w = length (heap w);
  wf_ids : ∀ h c, heap w !! h = Some c →
                  id (clientInfo c) = S h ∧ ws (clientInfo c) = h;
  wf_clients :
    clients w
    = filter (λ h, readyState (conn w h) ≠ CLOSED) (seq 0 (length (heap w)))
}.

(** An update of one cell that keeps the identity of the record and does
    not open or close the socket keeps the invariant. *)
Definition keeps_identity (f : Conn → Conn) : Prop :=
  ∀ c, id (clientInfo (f c)) = id (clientInfo c)
       ∧ ws (clientInfo (f c)) = ws (clientInfo c)
       ∧ (readyState (f c) = CLOSED ↔ readyState c = CLOSED).

(** ** The worlds the handlers lead to *)

(** The record and the world after a connection is accepted. *)
Definition new_clientInfo (w : World) (clientIp now : string) : ClientInfo :=
  mkClientInfo (S (clientCounter w)) (length (heap w)) clientIp now
    ("User_" +:+ pretty (S (clientCounter w))) true.

Definition accepted (w : World) (clientIp now : string) : World :=
  mkWorld (heap w ++ [mkConn OPEN (Some true) (new_clientInfo w clientIp now)])
          (clients w ++ [length (heap w)])
          (S (clientCounter w)).

(** The world after the ['close'] event of [h]. *)
Definition closed (w : World) (h : handle) : World :=
  mkWorld (alter (set_readyState CLOSED) h (heap w))
          (map_delete h (clients w))
          (clientCounter w).

(** What one tick does to the socket of a registered connection. *)
Definition beat (c : Conn) : Conn :=
  if bool_decide (ws_isAlive c = Some false)
  then (if decide (readyState c = CLOSED) then c else set_readyState CLOSING c)
  else set_ws_isAlive false c.

(** What one tick asks the transport to do with connection [k]. *)
Definition beat_action (w : World) (k : handle) : Action :=
  if bool_decide (ws_isAlive (conn w k) = Some false)
  then Terminate k else Ping k.

(** The world after a tick. *)
Definition beaten (w : World) : World :=
  with_heap (λ hp, foldl (λ hp k, alter beat k hp) hp (clients w)) w.

(** ** The messages of the routes *)

Definition chat_message (w : World) (a : handle) (t now : string) : json :=
  JObj [
    ("type", JStr "chat");
    ("username", JStr (username (clientInfo (conn w a))));
    ("clientId", JNum (Z.of_nat (id (clientInfo (conn w a)))));
    ("text", JStr t);
    ("timestamp", JStr now)].

(** A field that is absent, or a string that is empty after trimming. *)
Definition blank (v : option json) : Prop :=
  v = None ∨ ∃ t, v = Some (JStr t) ∧ trim t = "".

Definition username_changed (oldUsername newUsername now : string) : json :=
  JObj [
    ("type", JStr "username_changed");
    ("message", JStr ("Username changed from " +:+ dquote +:+ oldUsername
                      +:+ dquote +:+ " to " +:+ dquote +:+ newUsername
                      +:+ dquote));
    ("username", JStr newUsername);
    ("timestamp", JStr now)].

Definition user_renamed (oldUsername newUsername : string) (clientId : nat)
    (now : string) : json :=
  JObj [
    ("type", JStr "user_renamed");
    ("message", JStr (oldUsername +:+ " changed username to " +:+ newUsername));
    ("oldUsername", JStr oldUsername);
    ("newUsername", JStr newUsername);
    ("clientId", JNum (Z.of_nat clientId));
    ("timestamp", JStr now)].

(** The world after connection [a] took the display name [u]. *)
Definition renamed (w : World) (a : handle) (u : string) : World :=
  with_heap (alter (set_username u) a) w.

(** The [for ... of clients] search of the private-message route. *)
Definition lookup_target (w : World) (target : option json) : option handle :=
  List.find (λ ws_key, strict_eq_num (id (clientInfo (conn w ws_key))) target)
            (clients w).

Definition private_message (from : string) (fromClientId : nat) (text : json)
    (now : string) : json :=
  JObj [
    ("type", JStr "private_message");
    ("from", JStr from);
    ("fromClientId", JNum (Z.of_nat fromClientId));
    ("text", text);
    ("timestamp", JStr now)].

Definition private_message_sent (to : string) (text : json) (now : string)
  : json :=
  JObj [
    ("type", JStr "private_message_sent");
    ("to", JStr to);
    ("text", text);
    ("timestamp", JStr now)].

Definition target_not_found (printed now : string) : json :=
  JObj [
    ("type", JStr "error");
    ("message", JStr ("Target client " +:+ printed +:+ " not found"));
    ("timestamp", JStr now)].

Definition user_entry (client : ClientInfo) : json :=
  JObj [
    ("id", JNum (Z.of_nat (id client)));
    ("username", JStr (username client));
    ("connectedAt", JStr (connectedAt client));
    ("ip", JStr (ip client))].

Definition user_list (w : World) (now : string) : json :=
  JObj [
    ("type", JStr "user_list");
    ("users", JArr (map (λ k, user_entry (clientInfo (conn w k))) (clients w)));
    ("totalUsers", JNum (Z.of_nat (length (clients w))));
    ("timestamp", JStr now)].

(** ** Parse errors *)

Definition is_string (v : option json) : bool :=
  match v with
  | Some (JStr _) => true
  | _ => false
  end.

(** The values a template literal cannot print. *)
Definition unprintable (v : option json) : bool :=
  match template v with
  | Throw => true
  | Ok _ => false
  end.

(** The parsed payloads on which the dispatch raises a [TypeError]:
    [null], whose [type] cannot be read; a [set_username] or [chat]
    message whose [username] or [text] is truthy but has no [trim]; and a
    [private_message] with a truthy [text] whose [targetClientId] cannot
    be printed into the not-found error (such a target is no number, so
    that no registered id equals it). *)
Definition dispatch_throws (message : json) : bool :=
  match message with
  | JNull => true
  | JObj o =>
      (is_str (obj_get "type" o) "set_username"
       && truthy (obj_get "username" o)
       && negb (is_string (obj_get "username" o)))
      || (is_str (obj_get "type" o) "chat"
          && truthy (obj_get "text" o)
          && negb (is_string (obj_get "text" o)))
      || (is_str (obj_get "type" o) "private_message"
          && truthy (obj_get "targetClientId" o)
          && truthy (obj_get "text" o)
          && unprintable (obj_get "targetClientId" o))
  | _ => false
  end.

(** The error envelope of the [catch] block, whatever its timestamp. *)
Definition is_invalid_format (m : json) : bool :=
  match m with
  | JObj o =>
      is_str (obj_get "type" o) "error"
      && is_str (obj_get "message" o) "Invalid message format. Expected JSON."
  | _ => false
  end.

(** Whether some client is sent the invalid-format error. *)
Definition reports_parse_error (acts : list Action) : bool :=
  existsb (λ a, match a with
                | Send _ m => is_invalid_format m
                | _ => false
                end) acts.

(** ** A scenario: three clients connected *)

Definition three_clients : World :=
  run [EConnection "10.0.0.1" "t0";
       EConnection "10.0.0.2" "t1";
       EConnection "10.0.0.3" "t2"] initial.

Definition chat_hi : Payload :=
  Parsed (JObj [("type", JStr "chat"); ("text", JStr "hi")]).

(** ** Runs and what they announce *)

(** Connect and disconnect events. *)
Definition is_connect_or_disconnect (e : Event) : bool :=
  match e with
  | EConnection _ _ | EClose _ _ => true
  | _ => false
  end.

(** The number of connections a sequence of events opens. *)
Fixpoint connections (es : list Event) : nat :=
  match es with
  | [] => 0
  | EConnection _ _ :: r => S (connections r)
  | _ :: r => connections r
  end.

(** Everything the server asks of the transport along a run. *)
Fixpoint trace (es : list Event) (w : World) : list Action :=
  match es with
  | [] => []
  | e :: r => snd (step e w) ++ trace r (fst (step e w))
  end.

(** The client id a welcome message announces. *)
Definition welcome_id (a : Action) : option Z :=
  match a with
  | Send _ (JObj o) =>
      if is_str (obj_get "type" o) "welcome" then
        match obj_get "clientId" o with
        | Some (JNum z) => Some z
        | _ => None
        end
      else None
  | _ => None
  end.

(** The ids assigned during a run from module load, in order. *)
Definition assigned_ids (es : list Event) : list Z :=
  omap welcome_id (trace es initial).

(** No socket is half-way: none was terminated and is awaiting its
    ['close'] event. *)
Definition open_or_closed (w : World) : Prop :=
  Forall (λ c, readyState c = OPEN ∨ readyState c = CLOSED) (heap w).

(** ** Liveness *)

(** The connections a list of actions probes, and those it terminates. *)
Definition pinged (acts : list Action) : list handle :=
  omap (λ a, match a with Ping k => Some k | _ => None end) acts.

Definition terminated (acts : list Action) : list handle :=
  omap (λ a, match a with Terminate k => Some k | _ => None end) acts.

Definition occurrences (k : handle) (l : list handle) : nat :=
  length (filter (λ x, x = k) l).

(** An event that is neither a tick, nor an acknowledgment from [h], nor
    the disconnection of [h]. *)
Definition quiet (h : handle) (e : Event) : bool :=
  match e with
  | EHeartbeat => false
  | EPong k => negb (Nat.eqb k h)
  | EClose k _ => negb (Nat.eqb k h)
  | _ => true
  end.

(** ** Further vocabulary *)

(** The actions that are calls of [ws.send]. *)
Definition is_send (a : Action) : bool :=
  match a with
  | Send _ _ => true
  | _ => false
  end.

(** [message.type], when reading it does not throw. *)
Definition type_of (message : json) : option json :=
  match message with
  | JObj o => obj_get "type" o
  | _ => None
  end.

(** The types the [switch] has a case for. *)
Definition known_type (ty : option json) : bool :=
  is_str ty "set_username" || is_str ty "chat" || is_str ty "private_message"
  || is_str ty "get_users" || is_str ty "ping".

(** A display name is never empty; it is the generated default or a name
    a client chose, which has no white space around it. *)
Definition well_named (c : Conn) : Prop :=
  username (clientInfo c) ≠ ""
  ∧ (username (clientInfo c) = "User_" +:+ pretty (id (clientInfo c))
     ∨ trim (username (clientInfo c)) = username (clientInfo c)).

(** Whether connection [h] answers every probe along a run: no tick comes
    while an earlier probe is still unanswered ([pending]), and [h] does
    not disconnect. *)
Fixpoint responsive (h : handle) (pending : bool) (es : list Event) : bool :=
  match es with
  | [] => true
  | EHeartbeat :: r => negb pending && responsive h true r
  | EPong k :: r =>
      if Nat.eqb k h then responsive h false r else responsive h pending r
  | EClose k _ :: r => negb (Nat.eqb k h) && responsive h pending r
  | _ :: r => responsive h pending r
  end.

(** * Reasoning about the handlers *)

(** ** The JavaScript operations, on examples *)

Example Number_toString_examples :
  Number_toString 999 = "999"
  ∧ Number_toString (-5) = "-5"
  ∧ Number_toString (2 ^ 53 + 1) = "9007199254740992"
  ∧ Number_toString (2 ^ 64) = "18446744073709552000"
  ∧ Number_toString (10 ^ 21 - 1) = "1e+21"
  ∧ Number_toString (10 ^ 21) = "1e+21"
  ∧ Number_toString 123456789012345678901234567890 = "1.2345678901234568e+29"
  ∧ Number_toString (10 ^ 400) = "Infinity".
Proof. repeat split; vm_compute; reflexivity. Qed.

Example js_toString_examples :
  js_toString (JArr [JNum 1; JArr [JNum 2; JNull; JStr "a"]; JObj []])
  = Ok "1,2,,a,[object Object]"
  ∧ js_toString (JArr []) = Ok ""
  ∧ js_toString (JObj [("valueOf", JNum 1)]) = Ok "[object Object]"
  ∧ js_toString (JObj [("toString", JNum 1)]) = Throw
  ∧ js_toString (JArr [JNum 1; JArr [JObj [("toString", JNull)]]]) = Throw.
Proof. repeat split; vm_compute; reflexivity. Qed.

Example trim_examples :
  trim (nbsp +:+ " Ada Lovelace" +:+ em_space +:+ " ") = "Ada Lovelace"
  ∧ trim (" " +:+ nbsp) = ""
  ∧ trim "a b" = "a b"
  ∧ trim (String "195" (String "160" "")) = String "195" (String "160" "").
Proof. repeat split; vm_compute; reflexivity. Qed.

(** ** Broadcasts *)

Ltac unfold_monad :=
  cbv beta iota zeta delta
    [bind ret gets modify emit lift when try_catch throw exec
     ws_send ws_ping JSON_parse and_trim_nonempty prop call_trim fst snd].

Section ForEach.
Context {A : Type}.

(** A loop whose body leaves the world alone only appends actions. *)
Lemma forEach_pure (f : A → M unit) (g : A → list Action) (w : World) l :
  (∀ x, f x w = (Ok tt, w, g x)) →
  forEach l f w = (Ok tt, w, concat (map g l)).
Proof.
  intros Hf. induction l as [|x l IH]; [reflexivity|].
  cbn [forEach map concat]. unfold bind. rewrite Hf, IH. reflexivity.
Qed.

Lemma concat_map_filter (P : A → Prop) `{∀ x, Decision (P x)}
    (g : A → Action) l :
  concat (map (λ x, if bool_decide (P x) then [g x] else []) l)
  = map g (filter P l).
Proof.
  induction l as [|x l IH]; [reflexivity|].
  cbn [map concat]. rewrite filter_cons, IH.
  destruct (decide (P x)).
  - rewrite bool_decide_eq_true_2 by done. reflexivity.
  - rewrite bool_decide_eq_false_2 by done. reflexivity.
Qed.
End ForEach.

(** [broadcastMessage] changes nothing and sends one message to every
    registered open connection, in registry order. *)
Lemma broadcastMessage_spec message senderWs w :
  broadcastMessage message senderWs w
  = (Ok tt, w,
     map (λ k, Send k (broadcast_copy message senderWs k)) (open_clients w)).
Proof.
  unfold broadcastMessage, open_clients. unfold_monad.
  rewrite (forEach_pure _
    (λ k, if bool_decide (readyState (conn w k) = OPEN)
          then [Send k (broadcast_copy message senderWs k)] else [])).
  - rewrite concat_map_filter. reflexivity.
  - intros k. unfold broadcast_copy.
    destruct (bool_decide (readyState (conn w k) = OPEN)); [|reflexivity].
    destruct senderWs as [s|]; cbn.
    + destruct (decide (k = s)) as [->|Hne].
      * rewrite bool_decide_eq_false_2 by (intros Hn; apply Hn; reflexivity).
        rewrite decide_True by reflexivity. reflexivity.
      * rewrite bool_decide_eq_true_2 by done.
        rewrite decide_False by congruence. reflexivity.
    + reflexivity.
Qed.

Lemma received_map_Send (g : handle → json) k l :
  received k (map (λ h, Send h (g h)) l)
  = map g (filter (λ h, h = k) l).
Proof.
  unfold received. induction l as [|h l IH]; [reflexivity|].
  cbn [map omap list_omap]. rewrite filter_cons.
  destruct (decide (h = k)); cbn; rewrite <- IH; reflexivity.
Qed.

Lemma filter_eq_NoDup (k : handle) l :
  NoDup l → filter (λ h, h = k) l = if decide (k ∈ l) then [k] else [].
Proof.
  induction 1 as [|h l Hh Hl IH]; [reflexivity|].
  rewrite filter_cons, IH.
  destruct (decide (h = k)) as [->|Hne].
  - rewrite decide_False by done. rewrite decide_True by left. reflexivity.
  - destruct (decide (k ∈ l)).
    + rewrite decide_True by (right; done). reflexivity.
    + rewrite decide_False; [reflexivity|].
      intros Hin. apply elem_of_cons in Hin as [->|?]; done.
Qed.

(** Without duplicate keys, a broadcast gives each reached connection
    exactly one message and the others none. *)
Lemma received_broadcast (g : handle → json) k l :
  NoDup l →
  received k (map (λ h, Send h (g h)) l) = if decide (k ∈ l) then [g k] else [].
Proof.
  intros Hl. rewrite received_map_Send.
  rewrite filter_eq_NoDup by done. destruct (decide (k ∈ l)); reflexivity.
Qed.

(** ** Symbolic execution of a handler *)

(** Runs a handler symbolically: unfolds the monad, replaces each
    broadcast by its action list, and splits on the tests met. *)
Ltac split_test :=
  match goal with
  | |- context [match ?x with _ => _ end] =>
      lazymatch x with
      | context [match _ with _ => _ end] => fail
      | _ => destruct x eqn:?
      end
  end.

Ltac run_handler :=
  repeat first
    [ progress unfold_monad
    | rewrite broadcastMessage_spec
    | split_test ].

Lemma with_heap_id w : with_heap (λ hp, hp) w = w.
Proof. destruct w; reflexivity. Qed.

(** Handling a message changes at most the sender's display name. *)
Lemma on_message_world ws data now w :
  fst (exec (on_message ws data now) w) = w ∨
  ∃ t, fst (exec (on_message ws data now) w)
       = with_heap (alter (set_username t) ws) w.
Proof.
  unfold on_message.
  destruct data as [|message]; [left; reflexivity|].
  destruct message; try (left; reflexivity).
  run_handler; simplify_eq; try (left; reflexivity);
    right; eexists; reflexivity.
Qed.

(** ** The registry invariant holds in every reachable world *)

Lemma filter_ext_in {A} (P Q : A → Prop)
    `{!∀ x, Decision (P x), !∀ x, Decision (Q x)} (l : list A) :
  (∀ x, x ∈ l → P x ↔ Q x) → filter P l = filter Q l.
Proof.
  induction l as [|a l IH]; intros HPQ; [reflexivity|].
  rewrite !filter_cons, IH.
  - destruct (decide (P a)) as [HP|HP].
    + rewrite decide_True; [reflexivity|]. apply HPQ; [left|done].
    + rewrite decide_False; [reflexivity|].
      intros HQ. apply HP, HPQ; [left|done].
  - intros x Hx. apply HPQ. right. done.
Qed.

Lemma conn_closed_out_of_range w h :
  length (heap w) ≤ h → readyState (conn w h) = CLOSED.
Proof.
  intros Hh. unfold conn. rewrite list_lookup_total_alt.
  apply lookup_ge_None in Hh. rewrite Hh. reflexivity.
Qed.

Lemma conn_in_range w h : readyState (conn w h) ≠ CLOSED → h < length (heap w).
Proof.
  intros Hr. destruct (decide (h < length (heap w))); [done|].
  exfalso. apply Hr, conn_closed_out_of_range. lia.
Qed.

Lemma conn_alter f k w h :
  conn (with_heap (alter f k) w) h
  = if decide (k = h ∧ k < length (heap w)) then f (conn w k) else conn w h.
Proof. unfold conn, with_heap. cbn. apply list_lookup_total_alter. Qed.

Lemma conn_alter_ne f k w h : k ≠ h → conn (with_heap (alter f k) w) h = conn w h.
Proof. intros. rewrite conn_alter, decide_False; [reflexivity|]. intros []. done. Qed.

Lemma wf_registered w h :
  wf w → h ∈ clients w ↔ readyState (conn w h) ≠ CLOSED.
Proof.
  intros Hw. rewrite (wf_clients w Hw), list_elem_of_filter, elem_of_seq.
  split; [intros []; done|].
  intros Hr. split; [done|]. apply conn_in_range in Hr. lia.
Qed.

Lemma wf_NoDup w : wf w → NoDup (clients w).
Proof.
  intros Hw. rewrite (wf_clients w Hw). apply NoDup_filter, NoDup_seq.
Qed.

Lemma wf_id w h : wf w → h < length (heap w) → id (clientInfo (conn w h)) = S h.
Proof.
  intros Hw Hh. apply (wf_ids w Hw). unfold conn.
  apply list_lookup_lookup_total_lt. done.
Qed.

Lemma wf_alter f k w : keeps_identity f → wf w → wf (with_heap (alter f k) w).
Proof.
  intros Hf [Hc Hi Hm]. split; cbn.
  - rewrite length_alter. done.
  - intros h c. rewrite list_lookup_alter.
    destruct (decide (k = h)) as [->|_]; [|apply Hi].
    destruct (heap w !! h) as [c0|] eqn:E; [|done].
    intros [= <-]. destruct (Hf c0) as (-> & -> & _). apply Hi. done.
  - rewrite length_alter, Hm. apply filter_ext_in. intros h _.
    rewrite conn_alter. destruct (decide _) as [[-> _]|_]; [|done].
    destruct (Hf (conn w h)) as (_ & _ & ->). done.
Qed.

Lemma keeps_identity_set_username t : keeps_identity (set_username t).
Proof. intros c. done. Qed.

Lemma keeps_identity_set_ws_isAlive b : keeps_identity (set_ws_isAlive b).
Proof. intros c. done. Qed.

Lemma wf_initial : wf initial.
Proof. split; [reflexivity| |reflexivity]. intros h c. done. Qed.

(** ** Connections *)

Lemma not_registered_fresh w : wf w → length (heap w) ∉ clients w.
Proof.
  intros Hw Hin. apply (wf_registered w _ Hw) in Hin.
  apply conn_in_range in Hin. lia.
Qed.

Lemma open_registered_in_range w k : wf w → k ∈ clients w → k < length (heap w).
Proof.
  intros Hw Hin. apply (wf_registered w _ Hw) in Hin.
  by apply conn_in_range.
Qed.

Lemma on_connection_spec clientIp now w :
  wf w →
  exec (on_connection clientIp now) w
  = (accepted w clientIp now,
     Send (length (heap w)) (JObj [
       ("type", JStr "welcome");
       ("message", JStr ("Welcome to the WebSocket Server! Your ID: "
                         +:+ pretty (S (clientCounter w))));
       ("clientId", JNum (Z.of_nat (S (clientCounter w))));
       ("timestamp", JStr now)])
     :: map (λ k, Send k (JObj [
          ("type", JStr "user_joined");
          ("message", JStr ("User_" +:+ pretty (S (clientCounter w))
                            +:+ " joined the chat"));
          ("clientId", JNum (Z.of_nat (S (clientCounter w))));
          ("timestamp", JStr now)])) (open_clients w)
     ++ [Send (length (heap w)) (JObj [
          ("type", JStr "user_joined");
          ("message", JStr ("User_" +:+ pretty (S (clientCounter w))
                            +:+ " joined the chat"));
          ("clientId", JNum (Z.of_nat (S (clientCounter w))));
          ("timestamp", JStr now);
          ("acknowledged", JBool true)])]).
Proof.
  intros Hw. unfold on_connection. unfold_monad.
  rewrite broadcastMessage_spec. unfold_monad.
  cbn [heap clients clientCounter with_heap app username].
  unfold map_set. rewrite decide_False by (by apply not_registered_fresh).
  unfold accepted, new_clientInfo.
  unfold with_heap. cbn [heap clients clientCounter]. rewrite alter_app_r_alt by lia. rewrite Nat.sub_diag. cbn [alter list_alter set_ws_isAlive readyState clientInfo].
  f_equal. f_equal.
  unfold open_clients. cbn [clients]. rewrite filter_app, map_app, app_nil_r.
  f_equal.
  - rewrite (filter_ext_in _ (λ k, readyState (conn w k) = OPEN)).
    + apply map_ext_in. intros k Hk%list_elem_of_In.
      apply list_elem_of_filter in Hk as [_ Hk].
      unfold broadcast_copy. rewrite decide_False; [reflexivity|].
      intros [= Heq]. subst k. by apply (not_registered_fresh w).
    + intros k Hk. unfold conn. cbn [heap].
      rewrite lookup_total_app_l by (by apply open_registered_in_range). done.
  - rewrite filter_cons_True.
    + cbn [map]. unfold broadcast_copy. rewrite decide_True by done. reflexivity.
    + unfold conn. cbn [heap]. by rewrite list_lookup_total_middle.
Qed.

Lemma wf_accepted clientIp now w : wf w → wf (accepted w clientIp now).
Proof.
  intros Hw. pose proof Hw as [Hc Hi Hm].
  split; unfold accepted, conn; cbn [heap clients clientCounter].
  - rewrite length_app. cbn. lia.
  - intros h c [Hh|[Hh Hnew]]%lookup_app_Some; [by apply Hi|].
    destruct (h - length (heap w)) eqn:E; [|done].
    injection Hnew as <-. cbn. split; lia.
  - rewrite length_app. cbn [length]. rewrite Nat.add_1_r, seq_S, filter_app.
    f_equal.
    + rewrite Hm. apply filter_ext_in. intros k Hk%elem_of_seq.
      cbv beta. rewrite lookup_total_app_l by lia. done.
    + rewrite filter_cons_True; [done|].
      by rewrite list_lookup_total_middle.
Qed.

(** ** Disconnections *)

Lemma conn_closed w h k :
  conn (closed w h) k
  = if decide (h = k ∧ h < length (heap w))
    then set_readyState CLOSED (conn w h) else conn w k.
Proof. unfold conn, closed. cbn. apply list_lookup_total_alter. Qed.

Lemma clientInfo_closed w h k :
  clientInfo (conn (closed w h) k) = clientInfo (conn w k).
Proof.
  rewrite conn_closed. destruct (decide _) as [[-> _]|_]; reflexivity.
Qed.

Lemma heap_closed w h :
  heap (closed w h) = alter (set_readyState CLOSED) h (heap w).
Proof. reflexivity. Qed.

Lemma clients_closed w h : clients (closed w h) = map_delete h (clients w).
Proof. reflexivity. Qed.

Lemma wf_closed w h : wf w → wf (closed w h).
Proof.
  intros [Hc Hi Hm]. split; rewrite heap_closed.
  - rewrite length_alter. done.
  - intros k c. rewrite list_lookup_alter.
    case_decide as Hk; [subst k|apply Hi].
    intros (c0 & Hc0 & ->)%fmap_Some. cbn. by apply Hi.
  - rewrite clients_closed, length_alter, Hm. unfold map_delete.
    rewrite list_filter_filter. apply filter_ext_in.
    intros k Hk%elem_of_seq. rewrite conn_closed.
    destruct (decide _) as [[-> _]|Hn].
    + cbn. split; [intros []; done|done].
    + split; [intros []; done|]. intros Hr. split; [|done].
      intros ->. apply Hn. split; [done|lia].
Qed.

Lemma on_close_spec h now w :
  exec (modify (with_heap (alter (set_readyState CLOSED) h)) ;; on_close h now) w
  = (closed w h,
     map (λ k, Send k (JObj [
       ("type", JStr "user_left");
       ("message", JStr (username (clientInfo (conn w h)) +:+ " left the chat"));
       ("clientId", JNum (Z.of_nat (id (clientInfo (conn w h)))));
       ("timestamp", JStr now)])) (open_clients (closed w h))).
Proof.
  unfold on_close. unfold_monad. rewrite broadcastMessage_spec. unfold_monad.
  unfold with_heap. cbn [heap clients clientCounter app].
  fold (closed w h). rewrite clientInfo_closed. reflexivity.
Qed.

(** ** The heartbeat *)

Lemma keeps_identity_beat : keeps_identity beat.
Proof.
  intros c. unfold beat.
  destruct (bool_decide _); [|done].
  destruct (decide _); [done|]. cbn. split; [done|]. split; [done|].
  split; [done|]. intros ?. done.
Qed.

Lemma heartbeat_body ks : ∀ w,
  NoDup ks →
  forEach ks (λ ws,
    c <- gets (λ w, conn w ws) ;;
    if bool_decide (ws_isAlive c = Some false) then ws_terminate ws
    else
      modify (with_heap (alter (set_ws_isAlive false) ws)) ;;
      ws_ping ws) w
  = (Ok tt,
     with_heap (λ hp, foldl (λ hp k, alter beat k hp) hp ks) w,
     map (beat_action w) ks).
Proof.
  induction ks as [|k ks IH]; intros w Hnd.
  - cbn. rewrite with_heap_id. reflexivity.
  - apply NoDup_cons in Hnd as [Hk Hnd].
    cbn [forEach]. unfold bind at 1.
    assert ((c <- gets (λ w, conn w k) ;;
             if bool_decide (ws_isAlive c = Some false) then ws_terminate k
             else
               modify (with_heap (alter (set_ws_isAlive false) k)) ;;
               ws_ping k) w
            = (Ok tt, with_heap (alter beat k) w, [beat_action w k])) as ->.
    { unfold ws_terminate, beat_action. unfold_monad.
      destruct (bool_decide (ws_isAlive (conn w k) = Some false)) eqn:E.
      - unfold_monad. cbn [app]. do 2 f_equal. unfold with_heap. f_equal.
        apply list_alter_ext; [|done]. intros c Hc. unfold beat.
        apply list_lookup_total_correct in Hc. change (conn w k = c) in Hc.
        subst c. rewrite E. reflexivity.
      - unfold_monad. cbn [app]. do 2 f_equal. unfold with_heap. f_equal.
        apply list_alter_ext; [|done]. intros c Hc. unfold beat.
        apply list_lookup_total_correct in Hc. change (conn w k = c) in Hc.
        subst c. rewrite E. reflexivity. }
    rewrite IH by done. cbn [foldl map app].
    f_equal. f_equal. apply map_ext_in. intros h Hh%list_elem_of_In.
    unfold beat_action. rewrite conn_alter_ne; [done|]. intros ->. done.
Qed.

Lemma heartbeat_spec w :
  wf w → exec heartbeat w = (beaten w, map (beat_action w) (clients w)).
Proof.
  intros Hw. unfold heartbeat. unfold_monad.
  rewrite heartbeat_body by (by apply wf_NoDup). reflexivity.
Qed.

Lemma foldl_alter_length (f : Conn → Conn) (ks : list handle) : ∀ hp : list Conn,
  length (foldl (λ hp k, alter f k hp) hp ks) = length hp.
Proof.
  induction ks as [|k ks IH]; intros hp; [done|].
  cbn. rewrite IH, length_alter. done.
Qed.

Lemma foldl_alter_notin (f : Conn → Conn) (ks : list handle) (h : handle) : ∀ hp : list Conn,
  h ∉ ks → foldl (λ hp k, alter f k hp) hp ks !!! h = hp !!! h.
Proof.
  induction ks as [|k ks IH]; intros hp Hh; [done|].
  apply not_elem_of_cons in Hh as [Hne Hh]. cbn.
  rewrite IH by done. by apply list_lookup_total_alter_ne.
Qed.

Lemma foldl_alter_in (f : Conn → Conn) (ks : list handle) (h : handle) : ∀ hp : list Conn,
  NoDup ks → h ∈ ks → h < length hp →
  foldl (λ hp k, alter f k hp) hp ks !!! h = f (hp !!! h).
Proof.
  induction ks as [|k ks IH]; intros hp Hnd Hin Hlt.
  - by apply elem_of_nil in Hin.
  - apply NoDup_cons in Hnd as [Hk Hnd]. cbn.
    apply elem_of_cons in Hin as [->|Hin].
    + rewrite foldl_alter_notin by done.
      by apply list_lookup_total_alter_eq.
    + rewrite IH by (rewrite ?length_alter; done).
      rewrite list_lookup_total_alter_ne; [done|]. intros ->. done.
Qed.

(** A tick updates the socket of every registered connection once and
    leaves every other cell alone. *)
Lemma conn_beaten w h :
  wf w →
  conn (beaten w) h = if decide (h ∈ clients w) then beat (conn w h) else conn w h.
Proof.
  intros Hw. unfold conn, beaten, with_heap. cbn [heap].
  destruct (decide (h ∈ clients w)) as [Hin|Hin].
  - apply foldl_alter_in; [by apply wf_NoDup|done|].
    by apply open_registered_in_range.
  - by apply foldl_alter_notin.
Qed.

Lemma clients_beaten w : clients (beaten w) = clients w.
Proof. reflexivity. Qed.

Lemma wf_foldl_alter f ks : ∀ w,
  keeps_identity f → wf w →
  wf (with_heap (λ hp, foldl (λ hp k, alter f k hp) hp ks) w).
Proof.
  induction ks as [|k ks IH]; intros w Hf Hw.
  - cbn. by rewrite with_heap_id.
  - cbn [foldl].
    exact (IH (with_heap (alter f k) w) Hf (wf_alter f k w Hf Hw)).
Qed.

Lemma wf_beaten w : wf w → wf (beaten w).
Proof. apply wf_foldl_alter, keeps_identity_beat. Qed.

(** ** Every step keeps the invariant *)

Lemma on_pong_spec h w :
  exec (on_pong h) w = (with_heap (alter (set_ws_isAlive true) h) w, []).
Proof. reflexivity. Qed.

Lemma step_wf e w : wf w → wf (fst (step e w)).
Proof.
  intros Hw. destruct e as [clientIp now|h data now|h now|h|h|]; cbn [step].
  - rewrite on_connection_spec by done. by apply wf_accepted.
  - case_decide; [|done].
    destruct (on_message_world h data now w) as [->|[t ->]]; [done|].
    apply wf_alter; [apply keeps_identity_set_username|done].
  - case_decide; [done|]. rewrite on_close_spec. by apply wf_closed.
  - case_decide; [|done]. rewrite on_pong_spec.
    apply wf_alter; [apply keeps_identity_set_ws_isAlive|done].
  - done.
  - rewrite heartbeat_spec by done. by apply wf_beaten.
Qed.

Lemma run_wf es : ∀ w, wf w → wf (run es w).
Proof.
  induction es as [|e es IH]; intros w Hw; [done|].
  cbn [run]. apply IH, step_wf, Hw.
Qed.

Lemma reachable_wf w : reachable w → wf w.
Proof. intros [es ->]. apply run_wf, wf_initial. Qed.

(** ** The routes of the message handler *)

Lemma trim_nonempty_truthy t : trim t ≠ "" → truthy (Some (JStr t)) = true.
Proof. intros Ht. destruct t; [done|reflexivity]. Qed.

Lemma trim_nonempty_length t : trim t ≠ "" → Nat.ltb 0 (String.length (trim t)) = true.
Proof. intros Ht. destruct (trim t); [done|reflexivity]. Qed.

Ltac decide_type H :=
  rewrite ?H;
  repeat match goal with
  | |- context [is_str (Some (JStr ?a)) ?b] =>
      let v := eval vm_compute in (is_str (Some (JStr a)) b) in
      change (is_str (Some (JStr a)) b) with v
  end.

Lemma on_message_chat a o t now w :
  obj_get "type" o = Some (JStr "chat") →
  obj_get "text" o = Some (JStr t) →
  trim t ≠ "" →
  exec (on_message a (Parsed (JObj o)) now) w
  = (w, map (λ k, Send k (chat_message w a t now)) (open_clients w)).
Proof.
  intros Hty Htext Ht. unfold on_message. unfold_monad.
  decide_type Hty. rewrite !Htext.
  rewrite (trim_nonempty_truthy t Ht), (trim_nonempty_length t Ht).
  unfold_monad. rewrite broadcastMessage_spec. reflexivity.
Qed.

Lemma step_message a data now w :
  readyState (conn w a) = OPEN →
  step (EMessage a data now) w = exec (on_message a data now) w.
Proof. intros Ha. cbn [step]. rewrite decide_True by done. reflexivity. Qed.

Lemma open_registered w a : wf w → readyState (conn w a) = OPEN → a ∈ open_clients w.
Proof.
  intros Hw Ha. apply list_elem_of_filter. split; [done|].
  apply (wf_registered w a Hw). rewrite Ha. done.
Qed.

Lemma open_clients_NoDup w : wf w → NoDup (open_clients w).
Proof. intros Hw. apply NoDup_filter, wf_NoDup, Hw. Qed.

(** A message with a missing or blank field is dropped. *)
Lemma trim_empty_length t : trim t = "" → Nat.ltb 0 (String.length (trim t)) = false.
Proof. intros ->. reflexivity. Qed.

Lemma on_message_chat_blank a o now w :
  obj_get "type" o = Some (JStr "chat") →
  blank (obj_get "text" o) →
  exec (on_message a (Parsed (JObj o)) now) w = (w, []).
Proof.
  intros Hty Hb. unfold on_message. unfold_monad. decide_type Hty.
  destruct Hb as [Hb|(t & Hb & Ht)]; rewrite !Hb; cbn [truthy].
  - reflexivity.
  - destruct (negb (String.eqb t "")); [|reflexivity].
    rewrite (trim_empty_length t Ht). reflexivity.
Qed.

Lemma on_message_set_username_blank a o now w :
  obj_get "type" o = Some (JStr "set_username") →
  blank (obj_get "username" o) →
  exec (on_message a (Parsed (JObj o)) now) w = (w, []).
Proof.
  intros Hty Hb. unfold on_message. unfold_monad. decide_type Hty.
  destruct Hb as [Hb|(t & Hb & Ht)]; rewrite !Hb; cbn [truthy].
  - reflexivity.
  - destruct (negb (String.eqb t "")); [|reflexivity].
    rewrite (trim_empty_length t Ht). reflexivity.
Qed.

(** A falsy username stops the guard before [trim] is called. *)
Lemma on_message_set_username_falsy a o now w :
  obj_get "type" o = Some (JStr "set_username") →
  truthy (obj_get "username" o) = false →
  exec (on_message a (Parsed (JObj o)) now) w = (w, []).
Proof.
  intros Hty Hf. unfold on_message. unfold_monad. decide_type Hty.
  rewrite Hf. reflexivity.
Qed.

Lemma conn_renamed w a u k :
  conn (renamed w a u) k
  = if decide (a = k ∧ a < length (heap w))
    then set_username u (conn w a) else conn w k.
Proof. apply conn_alter. Qed.

Lemma open_clients_renamed w a u : open_clients (renamed w a u) = open_clients w.
Proof.
  unfold open_clients. apply filter_ext_in. intros k _.
  rewrite conn_renamed. destruct (decide _) as [[-> _]|_]; done.
Qed.

Lemma on_message_set_username a o u now w :
  readyState (conn w a) = OPEN →
  obj_get "type" o = Some (JStr "set_username") →
  obj_get "username" o = Some (JStr u) →
  trim u ≠ "" →
  exec (on_message a (Parsed (JObj o)) now) w
  = (renamed w a (trim u),
     Send a (username_changed (username (clientInfo (conn w a))) (trim u) now)
     :: map (λ k, Send k (user_renamed (username (clientInfo (conn w a)))
                            (trim u) (id (clientInfo (conn w a))) now))
            (open_clients w)).
Proof.
  intros Ha Hty Hu Ht. unfold on_message. unfold_monad.
  decide_type Hty. rewrite !Hu.
  rewrite (trim_nonempty_truthy u Ht), (trim_nonempty_length u Ht).
  unfold_monad. rewrite broadcastMessage_spec.
  fold (renamed w a (trim u)). rewrite open_clients_renamed.
  assert (username (clientInfo (conn (renamed w a (trim u)) a)) = trim u) as ->.
  { rewrite conn_renamed, decide_True; [done|]. split; [done|].
    apply conn_in_range. rewrite Ha. done. }
  reflexivity.
Qed.

Lemma on_message_private a o target text now w :
  obj_get "type" o = Some (JStr "private_message") →
  obj_get "targetClientId" o = Some target →
  obj_get "text" o = Some text →
  truthy (Some target) = true →
  truthy (Some text) = true →
  exec (on_message a (Parsed (JObj o)) now) w
  = (w,
     match lookup_target w (Some target) with
     | Some h =>
         [Send h (private_message (username (clientInfo (conn w a)))
                    (id (clientInfo (conn w a))) text now);
          Send a (private_message_sent (username (clientInfo (conn w h)))
                    text now)]
     | None =>
         match js_toString target with
         | Ok printed => [Send a (target_not_found printed now)]
         | Throw => [Send a (invalid_format now)]
         end
     end).
Proof.
  intros Hty Htarget Htext Tt Tx. unfold on_message. unfold_monad.
  decide_type Hty. rewrite !Htarget, !Htext, Tt, Tx. cbn [andb]. unfold_monad.
  fold (lookup_target w (Some target)).
  destruct (lookup_target w (Some target)); [reflexivity|].
  cbn [template]. destruct (js_toString target); reflexivity.
Qed.

Lemma on_message_private_falsy a o now w :
  obj_get "type" o = Some (JStr "private_message") →
  truthy (obj_get "targetClientId" o) && truthy (obj_get "text" o) = false →
  exec (on_message a (Parsed (JObj o)) now) w = (w, []).
Proof.
  intros Hty Hf. unfold on_message. unfold_monad.
  decide_type Hty. rewrite Hf. reflexivity.
Qed.

Lemma find_unique {A} (f : A → bool) (x : A) l :
  x ∈ l → (∀ y, y ∈ l → f y = true ↔ y = x) → List.find f l = Some x.
Proof.
  induction l as [|y l IH]; intros Hin Hf.
  - by apply elem_of_nil in Hin.
  - cbn. destruct (f y) eqn:E.
    + f_equal. apply Hf; [left|done].
    + apply IH.
      * apply elem_of_cons in Hin as [->|Hin]; [|done].
        assert (f y = true) as Hy by (apply Hf; [left|done]). congruence.
      * intros z Hz. apply Hf. by right.
Qed.

Lemma find_absent {A} (f : A → bool) l :
  (∀ y, y ∈ l → f y = false) → List.find f l = None.
Proof.
  induction l as [|y l IH]; intros Hf; [done|].
  cbn. rewrite Hf by left. apply IH. intros z Hz. apply Hf. by right.
Qed.

Lemma lookup_target_found w h :
  wf w → h ∈ clients w →
  lookup_target w (Some (JNum (Z.of_nat (id (clientInfo (conn w h)))))) = Some h.
Proof.
  intros Hw Hh. apply find_unique; [done|].
  intros k Hk. cbn [strict_eq_num].
  rewrite !(wf_id w _ Hw) by (by apply open_registered_in_range).
  rewrite Z.eqb_eq. split; [lia|]. by intros ->.
Qed.

Lemma lookup_target_absent w target :
  (∀ h, h ∈ clients w → target ≠ JNum (Z.of_nat (id (clientInfo (conn w h))))) →
  lookup_target w (Some target) = None.
Proof.
  intros Hno. apply find_absent. intros k Hk.
  destruct target; try reflexivity. cbn.
  apply Z.eqb_neq. intros Heq. apply (Hno k Hk). by rewrite Heq.
Qed.

Lemma on_message_get_users a o now w :
  obj_get "type" o = Some (JStr "get_users") →
  exec (on_message a (Parsed (JObj o)) now) w = (w, [Send a (user_list w now)]).
Proof.
  intros Hty. unfold on_message. unfold_monad. decide_type Hty. reflexivity.
Qed.

Lemma registered_ids_NoDup w :
  wf w → NoDup (map (λ k, id (clientInfo (conn w k))) (clients w)).
Proof.
  intros Hw.
  rewrite (map_ext_in _ S).
  - apply (NoDup_fmap_2 S), wf_NoDup, Hw.
  - intros k Hk%list_elem_of_In. apply wf_id; [done|].
    by apply open_registered_in_range.
Qed.

(** ** Which payloads are answered with the invalid-format error *)

Lemma reports_parse_error_broadcast (g : handle → json) l :
  (∀ k, is_invalid_format (g k) = false) →
  reports_parse_error (map (λ k, Send k (g k)) l) = false.
Proof.
  intros Hg. induction l as [|k l IH]; [done|].
  cbn. rewrite Hg. apply IH.
Qed.

Lemma reports_parse_error_cons h m l :
  reports_parse_error (Send h m :: l)
  = is_invalid_format m || reports_parse_error l.
Proof. reflexivity. Qed.

Lemma is_str_true v s : is_str v s = true → v = Some (JStr s).
Proof.
  destruct v as [[]|]; try done. cbn. intros ->%String.eqb_eq. done.
Qed.

(** No registered id equals a value that cannot be printed. *)
Lemma unprintable_lookup w target :
  unprintable target = true → lookup_target w target = None.
Proof.
  intros Hu. apply find_absent. intros h _.
  destruct target as [[]|]; done.
Qed.

Lemma on_message_throws a message now w :
  dispatch_throws message = true →
  exec (on_message a (Parsed message) now) w = (w, [Send a (invalid_format now)]).
Proof.
  destruct message as [| | | | |o]; try done.
  unfold dispatch_throws.
  intros [[[[Hty Ht]%andb_prop Hs]%andb_prop|[[Hty Ht]%andb_prop Hs]%andb_prop]%orb_prop
         |[[[Hty Ht]%andb_prop Hx]%andb_prop Hs]%andb_prop]%orb_prop;
    apply is_str_true in Hty.
  - unfold on_message; unfold_monad. decide_type Hty. rewrite Ht. unfold_monad.
    destruct (obj_get "username" o) as [[]|]; done.
  - unfold on_message; unfold_monad. decide_type Hty. rewrite Ht. unfold_monad.
    destruct (obj_get "text" o) as [[]|]; done.
  - destruct (obj_get "targetClientId" o) as [target|] eqn:Htarget; [|done].
    destruct (obj_get "text" o) as [text|] eqn:Htext; [|done].
    rewrite (on_message_private a o target text now w) by done.
    rewrite (unprintable_lookup w (Some target) Hs).
    unfold unprintable in Hs. cbn [template] in Hs.
    destruct (js_toString target); done.
Qed.

Lemma on_message_no_throw a message now w :
  dispatch_throws message = false →
  reports_parse_error (snd (exec (on_message a (Parsed message) now) w)) = false.
Proof.
  destruct message as [| | | | |o]; try done.
  unfold dispatch_throws. intros Hd.
  unfold on_message. run_handler; cbn [app];
    rewrite ?reports_parse_error_cons;
    rewrite ?reports_parse_error_broadcast by (intros; reflexivity);
    try reflexivity; cbn in Hd; try discriminate.
  match goal with
  | H1 : truthy _ && truthy _ = true, H2 : template _ = Throw |- _ =>
      rewrite H1 in Hd; unfold unprintable in Hd; by rewrite H2 in Hd
  end.
Qed.

(** ** Inboxes *)

Lemma received_app k l1 l2 : received k (l1 ++ l2) = received k l1 ++ received k l2.
Proof. apply omap_app. Qed.

Lemma received_Send_eq k m l : received k (Send k m :: l) = m :: received k l.
Proof. unfold received. cbn. rewrite decide_True by done. reflexivity. Qed.

Lemma received_Send_ne k h m l : h ≠ k → received k (Send h m :: l) = received k l.
Proof. intros. unfold received. cbn. rewrite decide_False by done. reflexivity. Qed.

Lemma received_open_clients w (m : json) k :
  wf w →
  received k (map (λ h, Send h m) (open_clients w))
  = if decide (k ∈ open_clients w) then [m] else [].
Proof.
  intros Hw. apply (received_broadcast (λ _, m)), open_clients_NoDup, Hw.
Qed.

(** ** The scenario *)

Lemma three_clients_reachable : reachable three_clients.
Proof. eexists. reflexivity. Qed.

(** ** Connect and disconnect sequences *)

Lemma omap_welcome_broadcast (g : handle → json) l :
  (∀ k, welcome_id (Send k (g k)) = None) →
  omap welcome_id (map (λ k, Send k (g k)) l) = [].
Proof.
  intros Hg. induction l as [|k l IH]; [done|].
  cbn [map omap list_omap]. rewrite Hg. apply IH.
Qed.

Lemma step_close h now w :
  step (EClose h now) w
  = if decide (readyState (conn w h) = CLOSED) then (w, [])
    else (closed w h,
          map (λ k, Send k (JObj [
            ("type", JStr "user_left");
            ("message", JStr (username (clientInfo (conn w h))
                              +:+ " left the chat"));
            ("clientId", JNum (Z.of_nat (id (clientInfo (conn w h)))));
            ("timestamp", JStr now)])) (open_clients (closed w h))).
Proof. cbn [step]. case_decide; [done|]. apply on_close_spec. Qed.

Lemma trace_welcome_ids es : ∀ w,
  wf w →
  Forall (λ e, is_connect_or_disconnect e = true) es →
  omap welcome_id (trace es w)
  = map Z.of_nat (seq (S (clientCounter w)) (connections es)).
Proof.
  induction es as [|e es IH]; intros w Hw Hes; [done|].
  apply Forall_cons in Hes as [He Hes].
  cbn [trace]. rewrite omap_app.
  rewrite (IH _ (step_wf e w Hw) Hes).
  destruct e as [clientIp now|h data now|h now|h|h|]; try done.
  - cbn [step connections]. rewrite on_connection_spec by done.
    cbn [fst snd seq map omap list_omap app].
    rewrite omap_app, omap_welcome_broadcast by done. reflexivity.
  - rewrite step_close. cbn [connections]. case_decide; [done|].
    cbn [fst snd]. rewrite omap_welcome_broadcast by done. reflexivity.
Qed.

Lemma filter_index_length (P : Conn → Prop) `{!∀ c, Decision (P c)}
    (l : list Conn) :
  length (filter (λ h, P (l !!! h)) (seq 0 (length l))) = length (filter P l).
Proof.
  induction l as [|x l IH] using rev_ind; [done|].
  rewrite length_app. cbn [length]. rewrite Nat.add_1_r, seq_S.
  rewrite !filter_app, !length_app. f_equal.
  - rewrite <- IH. f_equal. apply filter_ext_in. intros h Hh%elem_of_seq.
    rewrite lookup_total_app_l by lia. done.
  - cbn [Nat.add]. rewrite !filter_cons, !filter_nil.
    rewrite list_lookup_total_middle by done.
    destruct (decide (P x)); reflexivity.
Qed.

Lemma open_or_closed_run es : ∀ w,
  wf w → open_or_closed w →
  Forall (λ e, is_connect_or_disconnect e = true) es →
  open_or_closed (run es w).
Proof.
  induction es as [|e es IH]; intros w Hw Ho Hes; [done|].
  apply Forall_cons in Hes as [He Hes].
  cbn [run]. apply IH; [by apply step_wf| |done].
  destruct e as [clientIp now|h data now|h now|h|h|]; try done.
  - cbn [step]. rewrite on_connection_spec by done. cbn [fst].
    unfold open_or_closed, accepted. cbn [heap].
    apply Forall_app. split; [done|]. apply Forall_singleton. by left.
  - rewrite step_close. case_decide; [done|]. cbn [fst].
    unfold open_or_closed. rewrite heap_closed.
    apply Forall_forall. intros c Hc.
    apply list_elem_of_lookup in Hc as [i Hi].
    rewrite list_lookup_alter in Hi. case_decide.
    + apply fmap_Some in Hi as (c0 & _ & ->). by right.
    + unfold open_or_closed in Ho. rewrite Forall_forall in Ho.
      apply Ho. by apply list_elem_of_lookup_2 in Hi.
Qed.

Lemma registry_size_open w :
  wf w → open_or_closed w →
  length (clients w) = length (filter (λ c, readyState c = OPEN) (heap w)).
Proof.
  intros Hw Ho. rewrite (wf_clients w Hw).
  trans (length (filter (λ c, readyState c ≠ CLOSED) (heap w))).
  - exact (filter_index_length (λ c, readyState c ≠ CLOSED) (heap w)).
  - f_equal. apply filter_ext_in. intros c Hc.
    unfold open_or_closed in Ho. rewrite Forall_forall in Ho.
    destruct (Ho c Hc) as [Hs|Hs]; rewrite Hs; split; done.
Qed.

Lemma seq_of_nat_sorted n : ∀ s, StronglySorted Z.lt (map Z.of_nat (seq s n)).
Proof.
  induction n as [|n IH]; intros s; cbn; constructor; [apply IH|].
  apply Forall_forall. intros z Hz.
  apply list_elem_of_In, in_map_iff in Hz as (k & <- & Hk).
  apply in_seq in Hk. lia.
Qed.

(** ** Ticks and quiet events *)

Lemma occurrences_NoDup k l :
  NoDup l → occurrences k l = if decide (k ∈ l) then 1 else 0.
Proof.
  intros Hl. unfold occurrences. rewrite filter_eq_NoDup by done.
  destruct (decide (k ∈ l)); reflexivity.
Qed.

Lemma pinged_beat w l :
  pinged (map (beat_action w) l)
  = filter (λ k, ws_isAlive (conn w k) ≠ Some false) l.
Proof.
  induction l as [|k l IH]; [done|].
  cbn [map]. rewrite filter_cons, <- IH. unfold beat_action at 1.
  destruct (decide (ws_isAlive (conn w k) = Some false)) as [E|E].
  - rewrite bool_decide_eq_true_2 by done.
    rewrite decide_False by (intros Hn; by apply Hn). reflexivity.
  - rewrite bool_decide_eq_false_2 by done.
    rewrite decide_True by done. reflexivity.
Qed.

Lemma terminated_beat w l :
  terminated (map (beat_action w) l)
  = filter (λ k, ws_isAlive (conn w k) = Some false) l.
Proof.
  induction l as [|k l IH]; [done|].
  cbn [map]. rewrite filter_cons, <- IH. unfold beat_action at 1.
  destruct (decide (ws_isAlive (conn w k) = Some false)) as [E|E].
  - rewrite bool_decide_eq_true_2 by done. reflexivity.
  - rewrite bool_decide_eq_false_2 by done. reflexivity.
Qed.

Lemma step_heartbeat w :
  wf w → step EHeartbeat w = (beaten w, map (beat_action w) (clients w)).
Proof. intros Hw. cbn [step]. by apply heartbeat_spec. Qed.

Lemma received_beat w k l : received k (map (beat_action w) l) = [].
Proof.
  induction l as [|h l IH]; [done|].
  cbn [map]. unfold beat_action at 1, received.
  destruct (bool_decide _); cbn; apply IH.
Qed.

(** One tick, seen from a registered connection. *)
Lemma tick_alive w k :
  wf w → k ∈ clients w → ws_isAlive (conn w k) ≠ Some false →
  ws_isAlive (conn (fst (step EHeartbeat w)) k) = Some false
  ∧ readyState (conn (fst (step EHeartbeat w)) k) = readyState (conn w k)
  ∧ occurrences k (pinged (snd (step EHeartbeat w))) = 1
  ∧ occurrences k (terminated (snd (step EHeartbeat w))) = 0.
Proof.
  intros Hw Hk Ha. rewrite step_heartbeat by done. cbn [fst snd].
  rewrite conn_beaten, decide_True by done.
  unfold beat. rewrite bool_decide_eq_false_2 by done.
  split; [done|]. split; [done|].
  rewrite pinged_beat, terminated_beat.
  rewrite !occurrences_NoDup by (apply NoDup_filter, wf_NoDup, Hw).
  split.
  - rewrite decide_True; [done|]. by apply list_elem_of_filter.
  - rewrite decide_False; [done|]. by intros [? _]%list_elem_of_filter.
Qed.

Lemma tick_pending w k :
  wf w → k ∈ clients w → ws_isAlive (conn w k) = Some false →
  readyState (conn (fst (step EHeartbeat w)) k) = CLOSING
  ∧ k ∈ clients (fst (step EHeartbeat w))
  ∧ occurrences k (terminated (snd (step EHeartbeat w))) = 1
  ∧ occurrences k (pinged (snd (step EHeartbeat w))) = 0.
Proof.
  intros Hw Hk Ha. rewrite step_heartbeat by done. cbn [fst snd].
  rewrite conn_beaten, decide_True by done.
  unfold beat. rewrite bool_decide_eq_true_2 by done.
  apply (wf_registered w k Hw) in Hk as Hr.
  rewrite decide_False by done.
  split; [done|]. split; [done|].
  rewrite pinged_beat, terminated_beat.
  rewrite !occurrences_NoDup by (apply NoDup_filter, wf_NoDup, Hw).
  split.
  - rewrite decide_True; [done|]. by apply list_elem_of_filter.
  - rewrite decide_False; [done|]. by intros [? _]%list_elem_of_filter.
Qed.

(** A quiet event leaves the socket of [h] as it is. *)
Lemma quiet_step h e w :
  wf w → readyState (conn w h) ≠ CLOSED → quiet h e = true →
  readyState (conn (fst (step e w)) h) = readyState (conn w h)
  ∧ ws_isAlive (conn (fst (step e w)) h) = ws_isAlive (conn w h).
Proof.
  intros Hw Hr Hq. pose proof (conn_in_range w h Hr) as Hlt.
  destruct e as [clientIp now|k data now|k now|k|k|]; try done.
  - cbn [step]. rewrite on_connection_spec by done. cbn [fst].
    unfold accepted, conn. cbn [heap].
    rewrite lookup_total_app_l by done. done.
  - cbn [step]. case_decide; [|done].
    destruct (on_message_world k data now w) as [->|[t ->]]; [done|].
    rewrite conn_alter. case_decide as Hk; [|done]. destruct Hk as [-> _]. done.
  - cbn in Hq. apply negb_true_iff, Nat.eqb_neq in Hq.
    rewrite step_close. case_decide; [done|]. cbn [fst].
    rewrite conn_closed, decide_False; [done|]. by intros [? _].
  - cbn in Hq. apply negb_true_iff, Nat.eqb_neq in Hq.
    cbn [step]. case_decide; [|done]. rewrite on_pong_spec. cbn [fst].
    by rewrite conn_alter_ne.
Qed.

Lemma quiet_run h es : ∀ w,
  wf w → readyState (conn w h) ≠ CLOSED →
  Forall (λ e, quiet h e = true) es →
  readyState (conn (run es w) h) = readyState (conn w h)
  ∧ ws_isAlive (conn (run es w) h) = ws_isAlive (conn w h).
Proof.
  induction es as [|e es IH]; intros w Hw Hr Hes; [done|].
  apply Forall_cons in Hes as [He Hes].
  destruct (quiet_step h e w Hw Hr He) as [Hr1 Ha1].
  cbn [run]. rewrite <- Hr1, <- Ha1.
  apply IH; [by apply step_wf| |done]. by rewrite Hr1.
Qed.

(** * The claims *)

(** C1, as stated, fails: with A, B and C connected (handles 0, 1 and 2),
    A sends [{type:"chat", text:"hi"}].  The chat route calls
    [broadcastMessage] without a sender, so A is sent the very message B
    and C are sent; it carries no [acknowledged] property. *)
Lemma chat_sender_gets_plain_copy :
  clients three_clients = [0; 1; 2]
  ∧ snd (step (EMessage 0 chat_hi "t3") three_clients)
    = [Send 0 (chat_message three_clients 0 "hi" "t3");
       Send 1 (chat_message three_clients 0 "hi" "t3");
       Send 2 (chat_message three_clients 0 "hi" "t3")]
  ∧ chat_message three_clients 0 "hi" "t3"
    = JObj [("type", JStr "chat"); ("username", JStr "User_1");
            ("clientId", JNum 1); ("text", JStr "hi");
            ("timestamp", JStr "t3")]
  ∧ received 0 (snd (step (EMessage 0 chat_hi "t3") three_clients))
    ≠ [JObj [("type", JStr "chat"); ("username", JStr "User_1");
             ("clientId", JNum 1); ("text", JStr "hi");
             ("timestamp", JStr "t3"); ("acknowledged", JBool true)]].
Proof. repeat split; try reflexivity. vm_compute. discriminate. Qed.

(** C1 (amended).  A chat message whose text is a string that is not blank
    leaves the state as it is and sends one and the same chat message,
    carrying the sender's display name and id and the text, to every
    registered open connection, the sender included; nothing else is
    sent.  No copy carries an [acknowledged] marker. *)
Theorem chat_reaches_every_open_connection w a o t now :
  reachable w →
  readyState (conn w a) = OPEN →
  obj_get "type" o = Some (JStr "chat") →
  obj_get "text" o = Some (JStr t) →
  trim t ≠ "" →
  let m := JObj [
    ("type", JStr "chat");
    ("username", JStr (username (clientInfo (conn w a))));
    ("clientId", JNum (Z.of_nat (id (clientInfo (conn w a)))));
    ("text", JStr t);
    ("timestamp", JStr now)] in
  let out := snd (step (EMessage a (Parsed (JObj o)) now) w) in
  fst (step (EMessage a (Parsed (JObj o)) now) w) = w
  ∧ out = map (λ k, Send k m) (open_clients w)
  ∧ a ∈ open_clients w
  ∧ (∀ k, k ∈ open_clients w → received k out = [m])
  ∧ (∀ k, k ∉ open_clients w → received k out = []).
Proof.
  intros Hr Ha Hty Htext Ht m out. apply reachable_wf in Hr.
  subst out. rewrite step_message by done.
  rewrite (on_message_chat a o t now w Hty Htext Ht).
  change (chat_message w a t now) with m. cbn [fst snd].
  split; [done|]. split; [done|]. split; [by apply open_registered|].
  split; intros k Hk; rewrite received_open_clients by done.
  - by rewrite decide_True.
  - by rewrite decide_False.
Qed.

Lemma chat_reaches_every_open_connection_witness :
  reachable three_clients
  ∧ readyState (conn three_clients 0) = OPEN
  ∧ received 1 (snd (step (EMessage 0 chat_hi "t3") three_clients))
    = [JObj [("type", JStr "chat"); ("username", JStr "User_1");
             ("clientId", JNum 1); ("text", JStr "hi");
             ("timestamp", JStr "t3")]].
Proof.
  split; [exact three_clients_reachable|]. split; [reflexivity|].
  refine (proj1 (proj2 (proj2 (proj2
    (chat_reaches_every_open_connection three_clients 0
       [("type", JStr "chat"); ("text", JStr "hi")] "hi" "t3"
       three_clients_reachable eq_refl eq_refl eq_refl _)))) 1 _).
  - vm_compute. discriminate.
  - vm_compute. right. left.
Defined.

(** C2.  In a reachable world, a tick probes every registered connection
    that is alive and marks it pending, and terminates every registered
    connection that is still pending.  So a connection [h] that is alive
    and lets two consecutive ticks pass without an acknowledgment is
    probed at the first and terminated at the second; when the transport
    then reports it closed, it leaves the registry, one [user_left] notice
    is sent to each remaining registered open connection and nothing more
    is sent for it.  If its acknowledgment arrives between the two ticks,
    the second tick probes it again and it stays registered and open. *)
Theorem liveness_eviction w h now :
  reachable w →
  h ∈ clients w →
  readyState (conn w h) = OPEN →
  ws_isAlive (conn w h) = Some true →
  (∀ k, k ∈ clients w →
     let w1 := fst (step EHeartbeat w) in
     let out := snd (step EHeartbeat w) in
     (ws_isAlive (conn w k) ≠ Some false →
        ws_isAlive (conn w1 k) = Some false
        ∧ occurrences k (pinged out) = 1
        ∧ occurrences k (terminated out) = 0)
     ∧ (ws_isAlive (conn w k) = Some false →
        readyState (conn w1 k) = CLOSING
        ∧ occurrences k (terminated out) = 1
        ∧ occurrences k (pinged out) = 0))
  ∧ (∀ k, received k (snd (step EHeartbeat w)) = [])
  ∧ (∀ mid late,
       Forall (λ e, quiet h e = true) mid →
       Forall (λ e, quiet h e = true) late →
       let w2 := run mid (fst (step EHeartbeat w)) in
       let w3 := fst (step EHeartbeat w2) in
       let w4 := run late w3 in
       let w5 := fst (step (EClose h now) w4) in
       let notice := JObj [
         ("type", JStr "user_left");
         ("message", JStr (username (clientInfo (conn w4 h))
                           +:+ " left the chat"));
         ("clientId", JNum (Z.of_nat (id (clientInfo (conn w4 h)))));
         ("timestamp", JStr now)] in
       occurrences h (pinged (snd (step EHeartbeat w))) = 1
       ∧ occurrences h (terminated (snd (step EHeartbeat w2))) = 1
       ∧ occurrences h (pinged (snd (step EHeartbeat w2))) = 0
       ∧ readyState (conn w3 h) = CLOSING
       ∧ h ∈ clients w4
       ∧ clients w5 = filter (λ k, k ≠ h) (clients w4)
       ∧ (h ∉ clients w5)
       ∧ snd (step (EClose h now) w4)
         = map (λ k, Send k notice) (open_clients w5)
       ∧ (∀ k, k ∈ open_clients w5 →
            received k (snd (step (EClose h now) w4)) = [notice])
       ∧ (∀ now', step (EClose h now') w5 = (w5, [])))
  ∧ (∀ before after,
       Forall (λ e, quiet h e = true) before →
       Forall (λ e, quiet h e = true) after →
       let v :=
         run (before ++ EPong h :: after) (fst (step EHeartbeat w)) in
       h ∈ clients (fst (step EHeartbeat v))
       ∧ readyState (conn (fst (step EHeartbeat v)) h) = OPEN
       ∧ occurrences h (terminated (snd (step EHeartbeat v))) = 0
       ∧ occurrences h (pinged (snd (step EHeartbeat v))) = 1).
Proof.
  intros Hr Hh Ho Ha. apply reachable_wf in Hr as Hw.
  assert (ws_isAlive (conn w h) ≠ Some false) as Ha' by (by rewrite Ha).
  destruct (tick_alive w h Hw Hh Ha') as (Ha1 & Hr1 & Hp1 & Ht1).
  pose proof (step_wf EHeartbeat w Hw) as Hw1.
  rewrite Ho in Hr1.
  assert (readyState (conn (fst (step EHeartbeat w)) h) ≠ CLOSED) as Hn1
    by (by rewrite Hr1).
  split; [|split; [|split]].
  - intros k Hk w1 out. split; intros Hak.
    + destruct (tick_alive w k Hw Hk Hak) as (? & _ & ? & ?). done.
    + destruct (tick_pending w k Hw Hk Hak) as (? & _ & ? & ?). done.
  - intros k. rewrite step_heartbeat by done. apply received_beat.
  - intros mid late Hmid Hlate w2 w3 w4 w5 notice.
    destruct (quiet_run h mid _ Hw1 Hn1 Hmid) as [Hr2 Ha2].
    fold w2 in Hr2, Ha2. rewrite Hr1 in Hr2. rewrite Ha1 in Ha2.
    assert (wf w2) as Hw2 by (by apply run_wf).
    assert (h ∈ clients w2) as Hh2
      by (apply (wf_registered w2 h Hw2); by rewrite Hr2).
    destruct (tick_pending w2 h Hw2 Hh2 Ha2) as (Hr3 & Hh3 & Ht3 & Hp3).
    fold w3 in Hr3, Hh3.
    assert (wf w3) as Hw3 by (by apply step_wf).
    assert (readyState (conn w3 h) ≠ CLOSED) as Hn3 by (by rewrite Hr3).
    destruct (quiet_run h late _ Hw3 Hn3 Hlate) as [Hr4 _].
    fold w4 in Hr4. rewrite Hr3 in Hr4.
    assert (wf w4) as Hw4 by (by apply run_wf).
    assert (readyState (conn w4 h) ≠ CLOSED) as Hn4 by (by rewrite Hr4).
    assert (h ∈ clients w4) as Hh4 by (by apply (wf_registered w4 h Hw4)).
    assert (step (EClose h now) w4
            = (closed w4 h, map (λ k, Send k notice) (open_clients (closed w4 h))))
      as Hstep by (rewrite step_close; by rewrite decide_False).
    subst w5. rewrite Hstep. cbn [fst snd].
    assert (wf (closed w4 h)) as Hw5 by (by apply wf_closed).
    assert (readyState (conn (closed w4 h) h) = CLOSED) as Hc5.
    { rewrite conn_closed, decide_True; [done|].
      split; [done|]. by apply conn_in_range. }
    repeat split; try done.
    + intros Hin%(wf_registered _ h Hw5). done.
    + intros k Hk. rewrite received_open_clients by done.
      by rewrite decide_True.
    + intros now'. rewrite step_close. by rewrite decide_True.
  - intros before after Hbefore Hafter v.
    destruct (quiet_run h before _ Hw1 Hn1 Hbefore) as [Hrb Hab].
    rewrite Hr1 in Hrb.
    set (wb := run before (fst (step EHeartbeat w))) in *.
    assert (wf wb) as Hwb by (by apply run_wf).
    assert (v = run after (fst (step (EPong h) wb))) as Hv.
    { subst v wb. clear. generalize (fst (step EHeartbeat w)).
      induction before as [|e es IH]; intros w0; [done|]. apply IH. }
    assert (fst (step (EPong h) wb)
            = with_heap (alter (set_ws_isAlive true) h) wb) as Hpong.
    { cbn [step]. by rewrite decide_True. }
    set (wp := fst (step (EPong h) wb)) in *.
    assert (wf wp) as Hwp by (by apply step_wf).
    assert (readyState (conn wp h) = OPEN ∧ ws_isAlive (conn wp h) = Some true)
      as [Hrp Hap].
    { rewrite Hpong, conn_alter, decide_True; [by rewrite <- Hrb|].
      split; [done|]. apply conn_in_range. by rewrite Hrb. }
    assert (readyState (conn wp h) ≠ CLOSED) as Hnp by (by rewrite Hrp).
    destruct (quiet_run h after _ Hwp Hnp Hafter) as [Hrv Hav].
    rewrite <- Hv in Hrv, Hav. rewrite Hrp in Hrv. rewrite Hap in Hav.
    assert (wf v) as Hwv by (rewrite Hv; by apply run_wf).
    assert (h ∈ clients v) as Hhv
      by (apply (wf_registered v h Hwv); by rewrite Hrv).
    assert (ws_isAlive (conn v h) ≠ Some false) as Hav' by (by rewrite Hav).
    destruct (tick_alive v h Hwv Hhv Hav') as (_ & Hr' & Hp' & Ht').
    rewrite Hrv in Hr'.
    split; [|done].
    apply (wf_registered _ h (step_wf EHeartbeat v Hwv)). by rewrite Hr'.
Qed.

Lemma liveness_eviction_witness :
  reachable three_clients
  ∧ 1 ∈ clients three_clients
  ∧ readyState (conn three_clients 1) = OPEN
  ∧ ws_isAlive (conn three_clients 1) = Some true
  ∧ Forall (λ e, quiet 1 e = true) [EPong 0; EMessage 1 chat_hi "t4"]
  ∧ occurrences 1
      (terminated
         (snd (step EHeartbeat
                 (run [EPong 0; EMessage 1 chat_hi "t4"]
                      (fst (step EHeartbeat three_clients)))))) = 1.
Proof.
  assert (1 ∈ clients three_clients) as Hh by (right; left).
  assert (Forall (λ e, quiet 1 e = true) [EPong 0; EMessage 1 chat_hi "t4"])
    as Hmid by (repeat constructor).
  split; [exact three_clients_reachable|]. split; [exact Hh|].
  split; [reflexivity|]. split; [reflexivity|]. split; [exact Hmid|].
  exact (proj1 (proj2 (proj1 (proj2 (proj2
    (liveness_eviction three_clients 1 "t9"
       three_clients_reachable Hh eq_refl eq_refl)))
    [EPong 0; EMessage 1 chat_hi "t4"] [] Hmid (List.Forall_nil _)))).
Defined.

(** C3.  Along every sequence of connect and disconnect events from module
    load: a further connection is always registered, under the id that
    follows the counter; the ids announced so far are 1, 2, 3, ... in order
    of assignment, so the first is 1, they increase strictly and a closed
    connection's id is never given again; the registry holds as many
    entries as there are open sockets, without duplicate keys or ids. *)
Theorem registry_connect_disconnect es :
  Forall (λ e, is_connect_or_disconnect e = true) es →
  let w := run es initial in
  (∀ clientIp now,
     let w' := fst (step (EConnection clientIp now) w) in
     let n := length (heap w) in
     clients w' = clients w ++ [n]
     ∧ readyState (conn w' n) = OPEN
     ∧ id (clientInfo (conn w' n)) = S (clientCounter w))
  ∧ assigned_ids es = map Z.of_nat (seq 1 (connections es))
  ∧ (0 < connections es → head (assigned_ids es) = Some 1%Z)
  ∧ StronglySorted Z.lt (assigned_ids es)
  ∧ length (clients w) = length (filter (λ c, readyState c = OPEN) (heap w))
  ∧ NoDup (clients w)
  ∧ NoDup (map (λ k, id (clientInfo (conn w k))) (clients w)).
Proof.
  intros Hes w.
  assert (wf w) as Hw by (apply run_wf, wf_initial).
  assert (assigned_ids es = map Z.of_nat (seq 1 (connections es))) as Hids.
  { unfold assigned_ids. by rewrite trace_welcome_ids by (done || apply wf_initial). }
  split; [|split; [done|split; [|split; [|split; [|split]]]]].
  - intros clientIp now w' n. subst w'. cbn [step].
    rewrite on_connection_spec by done. cbn [fst].
    unfold accepted, conn. cbn [heap clients].
    rewrite list_lookup_total_middle by done. done.
  - rewrite Hids. destruct (connections es); [lia|done].
  - rewrite Hids. apply seq_of_nat_sorted.
  - apply registry_size_open; [done|].
    apply open_or_closed_run; [apply wf_initial|constructor|done].
  - by apply wf_NoDup.
  - by apply registered_ids_NoDup.
Qed.

Lemma registry_connect_disconnect_witness :
  Forall (λ e, is_connect_or_disconnect e = true)
    [EConnection "10.0.0.1" "t0"; EConnection "10.0.0.2" "t1";
     EClose 0 "t2"; EConnection "10.0.0.3" "t3"]
  ∧ assigned_ids
      [EConnection "10.0.0.1" "t0"; EConnection "10.0.0.2" "t1";
       EClose 0 "t2"; EConnection "10.0.0.3" "t3"]
    = [1; 2; 3]%Z.
Proof.
  assert (Forall (λ e, is_connect_or_disconnect e = true)
    [EConnection "10.0.0.1" "t0"; EConnection "10.0.0.2" "t1";
     EClose 0 "t2"; EConnection "10.0.0.3" "t3"]) as Hes
    by (repeat constructor).
  split; [exact Hes|].
  exact (proj1 (proj2 (registry_connect_disconnect _ Hes))).
Defined.

(** C4, as stated, fails: a username that is present but is not a
    string, here the number 5, is neither stored nor silently ignored.
    The guard calls [trim] on it, which throws, and the sender is sent the
    invalid-format error. *)
Lemma set_username_number_gets_error :
  step (EMessage 0
          (Parsed (JObj [("type", JStr "set_username");
                         ("username", JNum 5)])) "t3")
       three_clients
  = (three_clients,
     [Send 0 (JObj [("type", JStr "error");
                    ("message", JStr "Invalid message format. Expected JSON.");
                    ("timestamp", JStr "t3")])])
  ∧ username (clientInfo (conn three_clients 0)) = "User_1"
  ∧ received 0
      (snd (step (EMessage 0
                    (Parsed (JObj [("type", JStr "set_username");
                                   ("username", JNum 5)])) "t3")
                 three_clients)) ≠ [].
Proof. repeat split; try reflexivity. vm_compute. discriminate. Qed.

(** C4 (amended).  A [set_username] message whose username is a string
    that is not blank renames the sender's record to the trimmed name,
    sends the sender a [username_changed] confirmation and then a
    [user_renamed] notice, carrying the old and the new name, to every
    registered open connection, the sender included.  When the username
    is absent, blank or falsy ([null], [false], [0]), nothing is sent and
    nothing changes.  When it is truthy and not a string, the sender is
    sent one invalid-format error, and nothing else is sent or changed. *)
Theorem set_username_route w a o now :
  reachable w →
  readyState (conn w a) = OPEN →
  obj_get "type" o = Some (JStr "set_username") →
  let w' := fst (step (EMessage a (Parsed (JObj o)) now) w) in
  let out := snd (step (EMessage a (Parsed (JObj o)) now) w) in
  let old := username (clientInfo (conn w a)) in
  (∀ u, obj_get "username" o = Some (JStr u) → trim u ≠ "" →
     let notice := JObj [
       ("type", JStr "user_renamed");
       ("message", JStr (old +:+ " changed username to " +:+ trim u));
       ("oldUsername", JStr old);
       ("newUsername", JStr (trim u));
       ("clientId", JNum (Z.of_nat (id (clientInfo (conn w a)))));
       ("timestamp", JStr now)] in
     let confirmation := JObj [
       ("type", JStr "username_changed");
       ("message", JStr ("Username changed from " +:+ dquote +:+ old
                         +:+ dquote +:+ " to " +:+ dquote +:+ trim u
                         +:+ dquote));
       ("username", JStr (trim u));
       ("timestamp", JStr now)] in
     w' = renamed w a (trim u)
     ∧ username (clientInfo (conn w' a)) = trim u
     ∧ out = Send a confirmation :: map (λ k, Send k notice) (open_clients w)
     ∧ received a out = [confirmation; notice]
     ∧ (∀ k, k ∈ open_clients w → k ≠ a → received k out = [notice])
     ∧ (∀ k, k ∉ open_clients w → received k out = []))
  ∧ (blank (obj_get "username" o) → w' = w ∧ out = [])
  ∧ (truthy (obj_get "username" o) = false → w' = w ∧ out = [])
  ∧ (truthy (obj_get "username" o) = true →
     is_string (obj_get "username" o) = false →
     w' = w
     ∧ out = [Send a (JObj [
                ("type", JStr "error");
                ("message", JStr "Invalid message format. Expected JSON.");
                ("timestamp", JStr now)])]).
Proof.
  intros Hr Ha Hty w' out old. apply reachable_wf in Hr.
  subst w' out. rewrite step_message by done. split; [|split; [|split]].
  - intros u Hu Ht notice confirmation.
    rewrite (on_message_set_username a o u now w Ha Hty Hu Ht).
    cbn [fst snd]. split; [done|]. split.
    { rewrite conn_renamed, decide_True; [done|]. split; [done|].
      apply conn_in_range. by rewrite Ha. }
    split; [done|].
    change (username_changed _ _ _) with confirmation.
    change (λ k, Send k (user_renamed _ _ _ _)) with (λ k : handle, Send k notice).
    pose proof (open_registered w a Hr Ha) as Hin.
    split; [|split].
    + rewrite received_Send_eq, received_open_clients by done.
      by rewrite decide_True.
    + intros k Hk Hne. rewrite received_Send_ne by done.
      rewrite received_open_clients by done. by rewrite decide_True.
    + intros k Hk. rewrite received_Send_ne by (by intros ->).
      rewrite received_open_clients by done. by rewrite decide_False.
  - intros Hb. by rewrite (on_message_set_username_blank a o now w Hty Hb).
  - intros Hf. by rewrite (on_message_set_username_falsy a o now w Hty Hf).
  - intros Ht Hs. rewrite (on_message_throws a (JObj o) now w); [done|].
    unfold dispatch_throws. by rewrite Hty, Ht, Hs.
Qed.

Lemma set_username_route_witness :
  reachable three_clients
  ∧ readyState (conn three_clients 1) = OPEN
  ∧ username (clientInfo (conn
      (fst (step (EMessage 1
                    (Parsed (JObj [("type", JStr "set_username");
                                   ("username",
                                    JStr (nbsp +:+ "Ada" +:+ em_space))]))
                    "t3")
                 three_clients)) 1)) = "Ada".
Proof.
  split; [exact three_clients_reachable|]. split; [reflexivity|].
  refine (proj1 (proj2 (proj1
    (set_username_route three_clients 1
       [("type", JStr "set_username");
        ("username", JStr (nbsp +:+ "Ada" +:+ em_space))] "t3"
       three_clients_reachable eq_refl eq_refl)
    (nbsp +:+ "Ada" +:+ em_space) eq_refl _))).
  vm_compute. discriminate.
Defined.

(** C5.  A chat message whose text is absent, or is a string that is empty
    after trimming, produces no outbound message and changes nothing. *)
Theorem chat_blank_dropped w a o now :
  readyState (conn w a) = OPEN →
  obj_get "type" o = Some (JStr "chat") →
  obj_get "text" o = None
  ∨ (∃ t, obj_get "text" o = Some (JStr t) ∧ trim t = "") →
  step (EMessage a (Parsed (JObj o)) now) w = (w, []).
Proof.
  intros Ha Hty Hb. rewrite step_message by done.
  by apply on_message_chat_blank.
Qed.

Lemma chat_blank_dropped_witness :
  step (EMessage 0
          (Parsed (JObj [("type", JStr "chat");
                         ("text", JStr (" " +:+ nbsp))])) "t3")
       three_clients
  = (three_clients, [])
  ∧ step (EMessage 0 (Parsed (JObj [("type", JStr "chat")])) "t3")
      three_clients
    = (three_clients, []).
Proof.
  split.
  - apply (chat_blank_dropped three_clients 0
             [("type", JStr "chat"); ("text", JStr (" " +:+ nbsp))] "t3");
      [reflexivity|reflexivity|].
    right. exists (" " +:+ nbsp). split; reflexivity.
  - apply (chat_blank_dropped three_clients 0 [("type", JStr "chat")] "t3");
      [reflexivity|reflexivity|].
    left. reflexivity.
Defined.

(** C6, as stated, fails: both fields are present, no connection has id
    0 (ids start at 1), and yet the sender gets no error reply, because
    the guard drops a target id that is falsy. *)
Lemma private_message_to_id_0_unanswered :
  obj_get "targetClientId"
    [("type", JStr "private_message");
     ("targetClientId", JNum 0); ("text", JStr "x")] = Some (JNum 0)
  ∧ obj_get "text"
      [("type", JStr "private_message");
       ("targetClientId", JNum 0); ("text", JStr "x")] = Some (JStr "x")
  ∧ map (λ k, id (clientInfo (conn three_clients k))) (clients three_clients)
    = [1; 2; 3]
  ∧ step (EMessage 0
            (Parsed (JObj [("type", JStr "private_message");
                           ("targetClientId", JNum 0);
                           ("text", JStr "x")])) "t3")
         three_clients
    = (three_clients, [])
  ∧ received 0
      (snd (step (EMessage 0
                    (Parsed (JObj [("type", JStr "private_message");
                                   ("targetClientId", JNum 0);
                                   ("text", JStr "x")])) "t3")
                 three_clients)) = [].
Proof. repeat split; reflexivity. Qed.

(** C6 (amended).  For a private message whose target id and text are
    both truthy: when no registered connection has the target id, the
    sender is sent exactly one error, nothing else is sent and nothing
    changes; the error names the target as a template literal prints it
    (a number of 22 digits or more in exponent form), and it is the
    invalid-format error when the target cannot be printed (an object
    with a [toString] property of its own, or an array holding one).
    When registered connection [h] has the target id, [h] is sent the
    private message, then the sender is sent a confirmation naming the
    display name of [h], and nothing changes. *)
Theorem private_message_route w a o target text now :
  reachable w →
  readyState (conn w a) = OPEN →
  obj_get "type" o = Some (JStr "private_message") →
  obj_get "targetClientId" o = Some target →
  obj_get "text" o = Some text →
  truthy (Some target) = true →
  truthy (Some text) = true →
  ((∀ h, h ∈ clients w →
         target ≠ JNum (Z.of_nat (id (clientInfo (conn w h))))) →
   (∀ printed, js_toString target = Ok printed →
      step (EMessage a (Parsed (JObj o)) now) w
      = (w, [Send a (JObj [
               ("type", JStr "error");
               ("message", JStr ("Target client " +:+ printed
                                 +:+ " not found"));
               ("timestamp", JStr now)])]))
   ∧ (js_toString target = Throw →
      step (EMessage a (Parsed (JObj o)) now) w
      = (w, [Send a (JObj [
               ("type", JStr "error");
               ("message", JStr "Invalid message format. Expected JSON.");
               ("timestamp", JStr now)])])))
  ∧ (∀ h, h ∈ clients w →
          target = JNum (Z.of_nat (id (clientInfo (conn w h)))) →
     step (EMessage a (Parsed (JObj o)) now) w
     = (w, [Send h (JObj [
              ("type", JStr "private_message");
              ("from", JStr (username (clientInfo (conn w a))));
              ("fromClientId", JNum (Z.of_nat (id (clientInfo (conn w a)))));
              ("text", text);
              ("timestamp", JStr now)]);
            Send a (JObj [
              ("type", JStr "private_message_sent");
              ("to", JStr (username (clientInfo (conn w h))));
              ("text", text);
              ("timestamp", JStr now)])])).
Proof.
  intros Hr Ha Hty Htarget Htext Tt Tx. apply reachable_wf in Hr.
  rewrite step_message by done.
  rewrite (on_message_private a o target text now w Hty Htarget Htext Tt Tx).
  split.
  - intros Hno. rewrite lookup_target_absent by done.
    split; [intros printed Hp|intros Hp]; by rewrite Hp.
  - intros h Hh ->. by rewrite lookup_target_found.
Qed.

Lemma private_message_route_witness :
  reachable three_clients
  ∧ readyState (conn three_clients 0) = OPEN
  ∧ step (EMessage 0
            (Parsed (JObj [("type", JStr "private_message");
                           ("targetClientId", JNum 999); ("text", JStr "x")]))
            "t3") three_clients
    = (three_clients,
       [Send 0 (JObj [("type", JStr "error");
                      ("message", JStr "Target client 999 not found");
                      ("timestamp", JStr "t3")])]).
Proof.
  split; [exact three_clients_reachable|]. split; [reflexivity|].
  refine (proj1 (proj1
    (private_message_route three_clients 0
       [("type", JStr "private_message");
        ("targetClientId", JNum 999); ("text", JStr "x")]
       (JNum 999) (JStr "x") "t3"
       three_clients_reachable eq_refl eq_refl eq_refl eq_refl eq_refl eq_refl)
    _) "999" eq_refl).
  intros h Hh. vm_compute in Hh.
  repeat (apply elem_of_cons in Hh as [->|Hh]; [vm_compute; discriminate|]).
  by apply elem_of_nil in Hh.
Defined.

(** C7, as stated, fails: the payload [null] parses, and the sender is
    still sent the invalid-format error, because reading [message.type]
    throws inside the same [try] block.  So does a chat message whose text
    is the number 5. *)
Lemma parsed_null_reported_as_invalid :
  step (EMessage 0 (Parsed JNull) "t3") three_clients
  = (three_clients, [Send 0 (invalid_format "t3")])
  ∧ step (EMessage 0
            (Parsed (JObj [("type", JStr "chat"); ("text", JNum 5)])) "t3")
         three_clients
    = (three_clients, [Send 0 (invalid_format "t3")]).
Proof. split; reflexivity. Qed.

(** C7 (amended).  A payload that fails to parse sends the sender exactly
    one invalid-format error, changes nothing and leaves the connection
    open.  The same reply, and nothing else, follows a payload that
    parses but makes the dispatch throw: [null]; a [set_username] or
    [chat] message whose username or text is truthy and not a string; a
    [private_message] with a truthy text whose target id cannot be
    printed (an object with a [toString] property of its own, or an array
    holding one).  No other payload makes the server send an
    invalid-format error. *)
Theorem invalid_format_replies w a now :
  readyState (conn w a) = OPEN →
  let error := JObj [
    ("type", JStr "error");
    ("message", JStr "Invalid message format. Expected JSON.");
    ("timestamp", JStr now)] in
  step (EMessage a Unparseable now) w = (w, [Send a error])
  ∧ readyState (conn (fst (step (EMessage a Unparseable now) w)) a) = OPEN
  ∧ (∀ message, dispatch_throws message = true →
       step (EMessage a (Parsed message) now) w = (w, [Send a error]))
  ∧ (∀ message, dispatch_throws message = false →
       reports_parse_error (snd (step (EMessage a (Parsed message) now) w))
       = false).
Proof.
  intros Ha error. rewrite !step_message by done.
  split; [reflexivity|]. split; [exact Ha|]. split.
  - intros message Hd. rewrite step_message by done.
    by apply on_message_throws.
  - intros message Hd. rewrite step_message by done.
    by apply on_message_no_throw.
Qed.

Lemma invalid_format_replies_witness :
  readyState (conn three_clients 2) = OPEN
  ∧ step (EMessage 2 Unparseable "t3") three_clients
    = (three_clients,
       [Send 2 (JObj [("type", JStr "error");
                      ("message", JStr "Invalid message format. Expected JSON.");
                      ("timestamp", JStr "t3")])]).
Proof.
  split; [reflexivity|].
  exact (proj1 (invalid_format_replies three_clients 2 "t3" eq_refl)).
Defined.

(** C8.  A [get_users] message sends exactly one [user_list] reply, to the
    sender only, and changes nothing.  [totalUsers] is the size of the
    registry, [users] has one entry, with id, username, connection time
    and address, per registered connection, and no two entries share an
    id. *)
Theorem get_users_reply w a o now :
  reachable w →
  readyState (conn w a) = OPEN →
  obj_get "type" o = Some (JStr "get_users") →
  let users :=
    map (λ k, JObj [
           ("id", JNum (Z.of_nat (id (clientInfo (conn w k)))));
           ("username", JStr (username (clientInfo (conn w k))));
           ("connectedAt", JStr (connectedAt (clientInfo (conn w k))));
           ("ip", JStr (ip (clientInfo (conn w k))))])
        (clients w) in
  step (EMessage a (Parsed (JObj o)) now) w
  = (w, [Send a (JObj [
           ("type", JStr "user_list");
           ("users", JArr users);
           ("totalUsers", JNum (Z.of_nat (length (clients w))));
           ("timestamp", JStr now)])])
  ∧ length users = length (clients w)
  ∧ NoDup (map (λ k, id (clientInfo (conn w k))) (clients w)).
Proof.
  intros Hr Ha Hty users. apply reachable_wf in Hr.
  rewrite step_message by done.
  rewrite (on_message_get_users a o now w Hty).
  split; [reflexivity|]. split; [apply length_map|].
  by apply registered_ids_NoDup.
Qed.

Lemma get_users_reply_witness :
  reachable three_clients
  ∧ readyState (conn three_clients 1) = OPEN
  ∧ NoDup (map (λ k, id (clientInfo (conn three_clients k)))
               (clients three_clients)).
Proof.
  split; [exact three_clients_reachable|]. split; [reflexivity|].
  exact (proj2 (proj2
    (get_users_reply three_clients 1 [("type", JStr "get_users")] "t3"
       three_clients_reachable eq_refl eq_refl))).
Defined.

(** C9.  On a new connection the newcomer is sent the welcome message and
    then, last of the join broadcast, the [user_joined] announcement of
    its own join with [acknowledged: true] added; every other registered
    open connection is sent the plain announcement. *)
Theorem join_announced_to_joiner w clientIp now :
  reachable w →
  let n := length (heap w) in
  let welcome := JObj [
    ("type", JStr "welcome");
    ("message", JStr ("Welcome to the WebSocket Server! Your ID: "
                      +:+ pretty (S (clientCounter w))));
    ("clientId", JNum (Z.of_nat (S (clientCounter w))));
    ("timestamp", JStr now)] in
  let joined := [
    ("type", JStr "user_joined");
    ("message", JStr (("User_" +:+ pretty (S (clientCounter w)))
                      +:+ " joined the chat"));
    ("clientId", JNum (Z.of_nat (S (clientCounter w))));
    ("timestamp", JStr now)] in
  let out := snd (step (EConnection clientIp now) w) in
  out = Send n welcome
        :: map (λ k, Send k (JObj joined)) (open_clients w)
        ++ [Send n (JObj (joined ++ [("acknowledged", JBool true)]))]
  ∧ received n out = [welcome; JObj (joined ++ [("acknowledged", JBool true)])]
  ∧ (∀ k, k ∈ open_clients w → received k out = [JObj joined])
  ∧ n ∈ open_clients (fst (step (EConnection clientIp now) w)).
Proof.
  intros Hr n welcome joined out. apply reachable_wf in Hr.
  subst out. cbn [step]. rewrite (on_connection_spec clientIp now w Hr).
  cbn [fst snd]. split; [reflexivity|].
  assert (n ∉ open_clients w) as Hn.
  { intros [_ Hin]%list_elem_of_filter. by apply (not_registered_fresh w). }
  split; [|split].
  - rewrite received_Send_eq, received_app, received_open_clients by done.
    rewrite decide_False by done. rewrite received_Send_eq. reflexivity.
  - intros k Hk. assert (k ≠ n) as Hne by (by intros ->).
    rewrite received_Send_ne, received_app, received_open_clients by done.
    rewrite decide_True by done. by rewrite received_Send_ne.
  - apply list_elem_of_filter. split.
    + unfold conn, accepted. cbn [heap]. by rewrite list_lookup_total_middle.
    + unfold accepted. cbn [clients]. apply elem_of_app. right. left.
Qed.

Lemma join_announced_to_joiner_witness :
  reachable three_clients
  ∧ received 3 (snd (step (EConnection "10.0.0.4" "t3") three_clients))
    = [JObj [("type", JStr "welcome");
             ("message", JStr "Welcome to the WebSocket Server! Your ID: 4");
             ("clientId", JNum 4); ("timestamp", JStr "t3")];
       JObj [("type", JStr "user_joined");
             ("message", JStr "User_4 joined the chat");
             ("clientId", JNum 4); ("timestamp", JStr "t3");
             ("acknowledged", JBool true)]].
Proof.
  split; [exact three_clients_reachable|].
  exact (proj1 (proj2
    (join_announced_to_joiner three_clients "10.0.0.4" "t3"
       three_clients_reachable))).
Defined.

(** C10.  A private message whose two fields are present is dropped
    without reply, delivery or mutation when its text is the empty string
    or its target id is 0: the guard tests the fields for truthiness. *)
Theorem private_message_falsy_dropped w a o target text now :
  readyState (conn w a) = OPEN →
  obj_get "type" o = Some (JStr "private_message") →
  obj_get "targetClientId" o = Some target →
  obj_get "text" o = Some text →
  text = JStr "" ∨ target = JNum 0 →
  step (EMessage a (Parsed (JObj o)) now) w = (w, []).
Proof.
  intros Ha Hty Htarget Htext Hf. rewrite step_message by done.
  apply on_message_private_falsy; [done|].
  rewrite Htarget, Htext.
  destruct Hf as [->| ->]; [apply andb_false_r|reflexivity].
Qed.

Lemma private_message_falsy_dropped_witness :
  step (EMessage 0
          (Parsed (JObj [("type", JStr "private_message");
                         ("targetClientId", JNum 2); ("text", JStr "")]))
          "t3") three_clients
  = (three_clients, [])
  ∧ step (EMessage 0
            (Parsed (JObj [("type", JStr "private_message");
                           ("targetClientId", JNum 0); ("text", JStr "x")]))
            "t3") three_clients
    = (three_clients, []).
Proof.
  split.
  - apply (private_message_falsy_dropped three_clients 0 _ (JNum 2) (JStr ""));
      [reflexivity|reflexivity|reflexivity|reflexivity|].
    left. reflexivity.
  - apply (private_message_falsy_dropped three_clients 0 _ (JNum 0) (JStr "x"));
      [reflexivity|reflexivity|reflexivity|reflexivity|].
    right. reflexivity.
Defined.

(** * Further properties of the server *)

(** ** Auxiliary facts *)

Lemma forallb_sends (g : handle → json) l :
  forallb is_send (map (λ k, Send k (g k)) l) = true.
Proof. induction l as [|k l IH]; [done|]. exact IH. Qed.

Lemma only_sends_pinged acts : forallb is_send acts = true → pinged acts = [].
Proof.
  induction acts as [|a acts IH]; [done|].
  cbn [forallb]. intros [Ha Hacts]%andb_prop.
  destruct a; try done. cbn. by apply IH.
Qed.

Lemma only_sends_terminated acts :
  forallb is_send acts = true → terminated acts = [].
Proof.
  induction acts as [|a acts IH]; [done|].
  cbn [forallb]. intros [Ha Hacts]%andb_prop.
  destruct a; try done. cbn. by apply IH.
Qed.

Lemma ltb_length_nonempty s : Nat.ltb 0 (String.length s) = true → s ≠ "".
Proof. intros H ->. done. Qed.

(** What handling a message can do: it asks the transport for sends only,
    and it leaves the world alone unless it is a [set_username] message
    with a string that is not blank, which renames the sender. *)
Lemma on_message_effect ws data now w :
  forallb is_send (snd (exec (on_message ws data now) w)) = true
  ∧ (fst (exec (on_message ws data now) w) = w
     ∨ ∃ o u, data = Parsed (JObj o)
              ∧ obj_get "type" o = Some (JStr "set_username")
              ∧ obj_get "username" o = Some (JStr u)
              ∧ trim u ≠ ""
              ∧ fst (exec (on_message ws data now) w) = renamed w ws (trim u)).
Proof.
  unfold on_message.
  destruct data as [|message]; [split; [reflexivity|left; reflexivity]|].
  destruct message as [| | | | |o]; try (split; [reflexivity|left; reflexivity]).
  run_handler; cbn [app snd fst forallb is_send andb];
    rewrite ?forallb_sends; (split; [reflexivity|]);
    try (left; reflexivity).
  all: right; exists o; eexists; split; [reflexivity|].
  all: split; [by apply is_str_true|].
  all: split; [eassumption|].
  all: split; [by apply ltb_length_nonempty|reflexivity].
Qed.

Lemma on_message_ping a o now w :
  obj_get "type" o = Some (JStr "ping") →
  exec (on_message a (Parsed (JObj o)) now) w
  = (w, [Send a (JObj [("type", JStr "pong"); ("timestamp", JStr now)])]).
Proof.
  intros Hty. unfold on_message. unfold_monad. decide_type Hty. reflexivity.
Qed.

Lemma on_message_echo a message now w :
  message ≠ JNull →
  known_type (type_of message) = false →
  exec (on_message a (Parsed message) now) w
  = (w, [Send a (JObj [("type", JStr "echo"); ("message", message);
                       ("timestamp", JStr now)])]).
Proof.
  intros Hnull Hk. unfold known_type in Hk.
  repeat (apply orb_false_elim in Hk as [Hk ?]).
  destruct message as [| | | | |o]; try done.
  cbn [type_of] in *. unfold on_message. unfold_monad.
  repeat match goal with H : is_str _ _ = false |- _ => rewrite H; clear H end.
  reflexivity.
Qed.

Lemma step_heap_length e w :
  wf w →
  length (heap (fst (step e w)))
  = length (heap w) + connections [e].
Proof.
  intros Hw. destruct e as [clientIp now|h data now|h now|h|h|]; cbn [connections].
  - cbn [step]. rewrite on_connection_spec by done. cbn [fst].
    unfold accepted. cbn [heap]. rewrite length_app. done.
  - cbn [step]. case_decide; [|cbn; lia].
    destruct (on_message_world h data now w) as [->|[t ->]]; [lia|].
    cbn. rewrite length_alter. lia.
  - rewrite step_close. case_decide; cbn [fst]; [lia|].
    rewrite heap_closed, length_alter. lia.
  - cbn [step]. case_decide; [|cbn; lia]. rewrite on_pong_spec. cbn.
    rewrite length_alter. lia.
  - cbn. lia.
  - rewrite step_heartbeat by done. cbn [fst]. unfold beaten. cbn.
    rewrite foldl_alter_length. lia.
Qed.

Lemma connections_cons e es : connections (e :: es) = connections [e] + connections es.
Proof. destruct e; reflexivity. Qed.

Lemma run_heap_length es : ∀ w,
  wf w → length (heap (run es w)) = length (heap w) + connections es.
Proof.
  induction es as [|e es IH]; intros w Hw; [cbn; lia|].
  cbn [run]. rewrite IH by (by apply step_wf).
  rewrite step_heap_length by done. rewrite (connections_cons e es). lia.
Qed.

Lemma welcome_id_cons h m l :
  omap welcome_id (Send h m :: l)
  = match welcome_id (Send h m) with
    | Some z => z :: omap welcome_id l
    | None => omap welcome_id l
    end.
Proof. reflexivity. Qed.

Lemma on_message_no_welcome ws data now w :
  omap welcome_id (snd (exec (on_message ws data now) w)) = [].
Proof.
  unfold on_message.
  destruct data as [|message]; [reflexivity|].
  destruct message as [| | | | |o]; try reflexivity.
  run_handler; cbn [app snd fst];
    rewrite ?welcome_id_cons; cbn [welcome_id obj_get String.eqb Ascii.eqb Bool.eqb is_str];
    rewrite ?omap_welcome_broadcast by (intros; reflexivity);
    reflexivity.
Qed.

Lemma heartbeat_no_welcome w l : omap welcome_id (map (beat_action w) l) = [].
Proof.
  induction l as [|k l IH]; [done|].
  cbn [map]. unfold beat_action at 1. destruct (bool_decide _); exact IH.
Qed.

Lemma step_welcome_ids e w :
  wf w →
  omap welcome_id (snd (step e w))
  = map Z.of_nat (seq (S (clientCounter w)) (connections [e])).
Proof.
  intros Hw. destruct e as [clientIp now|h data now|h now|h|h|]; cbn [connections seq map].
  - cbn [step]. rewrite on_connection_spec by done.
    cbn [fst snd omap list_omap app].
    rewrite omap_app, omap_welcome_broadcast by done. reflexivity.
  - cbn [step]. case_decide; [|done]. apply on_message_no_welcome.
  - rewrite step_close. case_decide; [done|].
    cbn [snd]. by rewrite omap_welcome_broadcast.
  - cbn [step]. case_decide; done.
  - done.
  - rewrite step_heartbeat by done. apply heartbeat_no_welcome.
Qed.

Lemma trace_welcome_ids_any es : ∀ w,
  wf w →
  omap welcome_id (trace es w)
  = map Z.of_nat (seq (S (clientCounter w)) (connections es)).
Proof.
  induction es as [|e es IH]; intros w Hw; [done|].
  cbn [trace]. rewrite omap_app, step_welcome_ids by done.
  rewrite (IH _ (step_wf e w Hw)).
  rewrite (wf_counter _ (step_wf e w Hw)), step_heap_length by done.
  rewrite <- (wf_counter w Hw).
  rewrite (connections_cons e es), <- map_app, <- seq_app.
  reflexivity.
Qed.

Lemma trimStart_strip s :
  trimStart s = match strip s with Some r => trimStart r | None => s end.
Proof.
  destruct s as [|a [|b [|c r]]]; cbn; try done.
  - by destruct (white1 a).
  - destruct (white1 a); [done|]. by destruct (white2 a b).
  - destruct (white1 a); [done|]. destruct (white2 a b); [done|].
    by destruct (white3 a b c).
Qed.

Lemma strip_length s r : strip s = Some r → String.length r < String.length s.
Proof.
  destruct s as [|a [|b [|c r3]]]; cbn; try done.
  - destruct (white1 a); [|done]. intros [= <-]. cbn. lia.
  - destruct (white1 a); [intros [= <-]; cbn; lia|].
    destruct (white2 a b); [|done]. intros [= <-]. cbn. lia.
  - destruct (white1 a); [intros [= <-]; cbn; lia|].
    destruct (white2 a b); [intros [= <-]; cbn; lia|].
    destruct (white3 a b c); [|done]. intros [= <-]. cbn. lia.
Qed.

Lemma append_cons a r q : String a r +:+ q = String a (r +:+ q).
Proof. reflexivity. Qed.

Lemma append_nil q : "" +:+ q = q.
Proof. reflexivity. Qed.

Lemma strip_app p q r : strip p = Some r → strip (p +:+ q) = Some (r +:+ q).
Proof.
  destruct p as [|a [|b [|c r3]]]; rewrite ?append_cons, ?append_nil;
    cbn [strip]; try done.
  - destruct (white1 a); [|done]. by intros [= <-].
  - destruct (white1 a); [by intros [= <-]|].
    destruct (white2 a b); [|done]. by intros [= <-].
  - destruct (white1 a); [by intros [= <-]|].
    destruct (white2 a b); [by intros [= <-]|].
    destruct (white3 a b c); [|done]. by intros [= <-].
Qed.

(** What [trimStart] returns does not start with white space. *)
Lemma trimStart_fixed s : strip (trimStart s) = None.
Proof.
  remember (String.length s) as n eqn:Hn. revert s Hn.
  induction (lt_wf n) as [n _ IH]. intros s ->.
  rewrite trimStart_strip. destruct (strip s) as [r|] eqn:E; [|done].
  apply (IH (String.length r)); [by apply strip_length|done].
Qed.

Lemma trimStart_app p q : trimStart p = "" → trimStart (p +:+ q) = trimStart q.
Proof.
  remember (String.length p) as n eqn:Hn. revert p Hn.
  induction (lt_wf n) as [n _ IH]. intros p -> Hp.
  rewrite trimStart_strip in Hp. rewrite (trimStart_strip (p +:+ q)).
  destruct (strip p) as [r|] eqn:E.
  - rewrite (strip_app p q r E).
    apply (IH (String.length r)); [by apply strip_length|done|done].
  - subst p. rewrite append_nil. symmetry. apply trimStart_strip.
Qed.

Lemma all_white_app p q :
  all_white p = true → all_white q = true → all_white (p +:+ q) = true.
Proof.
  unfold all_white. intros Hp Hq.
  rewrite trimStart_app; [done|]. by destruct (trimStart p).
Qed.

(** [trimEnd] removes a suffix of white space. *)
Lemma trimEnd_split s : ∃ w, s = trimEnd s +:+ w ∧ all_white w = true.
Proof.
  induction s as [|c r (w & Hr & Hw)].
  - by exists "".
  - cbn [trimEnd]. destruct (all_white (String c r)) eqn:E.
    + by exists (String c r).
    + exists w. split; [|done]. rewrite append_cons. by rewrite <- Hr.
Qed.

Lemma trimEnd_idem s : trimEnd (trimEnd s) = trimEnd s.
Proof.
  induction s as [|c r IH]; [done|].
  cbn [trimEnd]. destruct (all_white (String c r)) eqn:E; [done|].
  cbn [trimEnd]. rewrite IH.
  destruct (all_white (String c (trimEnd r))) eqn:E'; [|done].
  destruct (trimEnd_split r) as (w & Hr & Hw).
  pose proof (all_white_app _ w E' Hw) as Ha. rewrite append_cons in Ha.
  rewrite <- Hr in Ha. congruence.
Qed.

Lemma strip_prefix p q : strip (p +:+ q) = None → strip p = None.
Proof.
  intros H. destruct (strip p) as [r|] eqn:E; [|done].
  by rewrite (strip_app p q r E) in H.
Qed.

Lemma trim_idem s : trim (trim s) = trim s.
Proof.
  unfold trim. pose proof (trimStart_fixed s) as Hx.
  destruct (trimEnd_split (trimStart s)) as (w & Hs & _).
  rewrite Hs in Hx. apply strip_prefix in Hx.
  rewrite (trimStart_strip (trimEnd _)), Hx. apply trimEnd_idem.
Qed.

Lemma well_named_keeps (f : Conn → Conn) c :
  clientInfo (f c) = clientInfo c → well_named c → well_named (f c).
Proof. unfold well_named. by intros ->. Qed.

Lemma well_named_foldl (f : Conn → Conn) (ks : list handle) :
  (∀ c, clientInfo (f c) = clientInfo c) →
  ∀ hp : list Conn, Forall well_named hp →
  Forall well_named (foldl (λ hp k, alter f k hp) hp ks).
Proof.
  intros Hf. induction ks as [|k ks IH]; intros hp Hhp; [done|].
  cbn. apply IH, Forall_alter; [done|].
  intros c _. by apply well_named_keeps.
Qed.

Lemma clientInfo_beat c : clientInfo (beat c) = clientInfo c.
Proof. unfold beat. destruct (bool_decide _); [|done]. by destruct (decide _). Qed.

Lemma step_well_named e w :
  wf w → Forall well_named (heap w) → Forall well_named (heap (fst (step e w))).
Proof.
  intros Hw Hn. destruct e as [clientIp now|h data now|h now|h|h|].
  - cbn [step]. rewrite on_connection_spec by done. cbn [fst].
    unfold accepted. cbn [heap]. apply Forall_app. split; [done|].
    apply Forall_singleton. split; [done|]. by left.
  - cbn [step]. case_decide; [|done].
    destruct (on_message_effect h data now w)
      as [_ [->|(o & u & _ & _ & _ & Ht & ->)]]; [done|].
    unfold renamed, with_heap. cbn [heap]. apply Forall_alter; [done|].
    intros c _ _. split; [done|]. right. apply trim_idem.
  - rewrite step_close. case_decide; [done|]. cbn [fst].
    rewrite heap_closed. apply Forall_alter; [done|].
    intros c _. by apply well_named_keeps.
  - cbn [step]. case_decide; [|done]. rewrite on_pong_spec. cbn.
    apply Forall_alter; [done|]. intros c _. by apply well_named_keeps.
  - done.
  - rewrite step_heartbeat by done. cbn [fst]. unfold beaten, with_heap.
    cbn [heap]. apply well_named_foldl; [apply clientInfo_beat|done].
Qed.

Lemma run_well_named es : ∀ w,
  wf w → Forall well_named (heap w) → Forall well_named (heap (run es w)).
Proof.
  induction es as [|e es IH]; intros w Hw Hn; [done|].
  cbn [run]. apply IH; [by apply step_wf|by apply step_well_named].
Qed.

Lemma terminated_app l1 l2 : terminated (l1 ++ l2) = terminated l1 ++ terminated l2.
Proof. apply omap_app. Qed.

Lemma occurrences_app k l1 l2 :
  occurrences k (l1 ++ l2) = occurrences k l1 + occurrences k l2.
Proof. unfold occurrences. by rewrite filter_app, length_app. Qed.

Lemma terminated_sends (g : handle → json) l :
  terminated (map (λ k, Send k (g k)) l) = [].
Proof. apply only_sends_terminated, forallb_sends. Qed.

(** Only a tick terminates. *)
Lemma step_terminated e w :
  wf w → e ≠ EHeartbeat → terminated (snd (step e w)) = [].
Proof.
  intros Hw He. destruct e as [clientIp now|h data now|h now|h|h|]; try done.
  - cbn [step]. rewrite on_connection_spec by done. cbn [snd].
    change (terminated (?a :: ?l)) with (terminated l).
    by rewrite terminated_app, terminated_sends.
  - cbn [step]. case_decide; [|done].
    apply only_sends_terminated, on_message_effect.
  - rewrite step_close. case_decide; [done|]. apply terminated_sends.
  - cbn [step]. case_decide; done.
Qed.

Lemma responsive_safe h es : ∀ w pending,
  wf w →
  readyState (conn w h) = OPEN →
  (pending = false → ws_isAlive (conn w h) ≠ Some false) →
  responsive h pending es = true →
  occurrences h (terminated (trace es w)) = 0
  ∧ readyState (conn (run es w) h) = OPEN
  ∧ h ∈ clients (run es w).
Proof.
  induction es as [|e es IH]; intros w pending Hw Ho Ha Hes.
  - cbn. split; [done|]. split; [done|].
    apply (wf_registered w h Hw). by rewrite Ho.
  - cbn [trace run]. rewrite terminated_app, occurrences_app.
    pose proof (step_wf e w Hw) as Hw'.
    assert (readyState (conn w h) ≠ CLOSED) as Hn by (by rewrite Ho).
    destruct e as [clientIp now|k data now|k now|k|k|].
    + destruct (quiet_step h (EConnection clientIp now) w Hw Hn eq_refl) as [Hr1 Ha1].
      rewrite step_terminated by done.
      apply (IH _ pending Hw');
        [by rewrite Hr1|intros Hp; rewrite Ha1; by apply Ha|done].
    + destruct (quiet_step h (EMessage k data now) w Hw Hn eq_refl) as [Hr1 Ha1].
      rewrite step_terminated by done.
      apply (IH _ pending Hw');
        [by rewrite Hr1|intros Hp; rewrite Ha1; by apply Ha|done].
    + cbn [responsive] in Hes. apply andb_prop in Hes as [Hk Hes].
      destruct (quiet_step h (EClose k now) w Hw Hn Hk) as [Hr1 Ha1].
      rewrite step_terminated by done.
      apply (IH _ pending Hw');
        [by rewrite Hr1|intros Hp; rewrite Ha1; by apply Ha|done].
    + rewrite step_terminated by done. cbn [responsive] in Hes.
      destruct (Nat.eqb k h) eqn:Ek.
      * apply Nat.eqb_eq in Ek as ->.
        apply (IH _ false Hw'); [| |done].
        -- cbn [step]. rewrite decide_True by done. rewrite on_pong_spec.
           cbn [fst]. rewrite conn_alter. by case_decide.
        -- intros _. cbn [step]. rewrite decide_True by done.
           rewrite on_pong_spec. cbn [fst].
           rewrite conn_alter, decide_True; [done|].
           split; [done|]. by apply conn_in_range.
      * assert (quiet h (EPong k) = true) as Hq by (cbn; by rewrite Ek).
        destruct (quiet_step h (EPong k) w Hw Hn Hq) as [Hr1 Ha1].
        apply (IH _ pending Hw');
        [by rewrite Hr1|intros Hp; rewrite Ha1; by apply Ha|done].
    + destruct (quiet_step h (EError k) w Hw Hn eq_refl) as [Hr1 Ha1].
      rewrite step_terminated by done.
      apply (IH _ pending Hw');
        [by rewrite Hr1|intros Hp; rewrite Ha1; by apply Ha|done].
    + cbn [responsive] in Hes. apply andb_prop in Hes as [Hp Hes].
      apply negb_true_iff in Hp. subst pending.
      assert (h ∈ clients w) as Hh by (by apply (wf_registered w h Hw)).
      destruct (tick_alive w h Hw Hh (Ha eq_refl)) as (Ha1 & Hr1 & _ & Ht1).
      rewrite Ht1. apply (IH _ true Hw'); [congruence|done|done].
Qed.

Lemma pinged_app l1 l2 : pinged (l1 ++ l2) = pinged l1 ++ pinged l2.
Proof. apply omap_app. Qed.

Lemma sorted_filter_seq (P : nat → Prop) `{!∀ x, Decision (P x)} n : ∀ s,
  StronglySorted lt (filter P (seq s n)).
Proof.
  induction n as [|n IH]; intros s; [constructor|].
  cbn [seq]. rewrite filter_cons. destruct (decide (P s)); [|apply IH].
  constructor; [apply IH|].
  apply Forall_forall. intros k [_ Hk%elem_of_seq]%list_elem_of_filter. lia.
Qed.

Lemma sorted_map_S l : StronglySorted lt l → StronglySorted lt (map S l).
Proof.
  induction 1 as [|x l Hl IH Hx]; cbn; constructor; [done|].
  apply Forall_forall. intros y Hy.
  apply list_elem_of_In, in_map_iff in Hy as (k & <- & Hk).
  rewrite Forall_forall in Hx. apply list_elem_of_In, Hx in Hk. lia.
Qed.

Lemma registered_ids_sorted w :
  wf w → StronglySorted lt (map (λ k, id (clientInfo (conn w k))) (clients w)).
Proof.
  intros Hw. rewrite (map_ext_in _ S).
  - apply sorted_map_S. rewrite (wf_clients w Hw). apply sorted_filter_seq.
  - intros k Hk%list_elem_of_In. apply wf_id; [done|].
    by apply open_registered_in_range.
Qed.

Lemma open_clients_closed w h :
  open_clients (closed w h) = filter (λ k, k ≠ h) (open_clients w).
Proof.
  unfold open_clients. rewrite clients_closed. unfold map_delete.
  rewrite !list_filter_filter. apply filter_ext_in. intros k _.
  rewrite conn_closed. case_decide as Hc.
  - destruct Hc as [-> _]. cbn. split; [intros [? _]; done|intros [? _]; done].
  - split; intros [? ?]; split; try done.
Qed.

Lemma obj_get_set_eq k v o : obj_get k (obj_set k v o) = Some v.
Proof.
  induction o as [|[k' v'] o IH]; cbn.
  - by rewrite String.eqb_refl.
  - destruct (String.eqb k k') eqn:E; cbn; rewrite E; [done|apply IH].
Qed.

Lemma obj_get_set_ne k k0 v o : k0 ≠ k → obj_get k0 (obj_set k v o) = obj_get k0 o.
Proof.
  intros Hne. induction o as [|[k' v'] o IH]; cbn.
  - apply String.eqb_neq in Hne. by rewrite Hne.
  - destruct (String.eqb k k') eqn:E; cbn.
    + apply String.eqb_eq in E as <-.
      apply String.eqb_neq in Hne. by rewrite Hne.
    + by rewrite IH.
Qed.

Lemma obj_set_fresh k v o : obj_get k o = None → obj_set k v o = o ++ [(k, v)].
Proof.
  induction o as [|[k' v'] o IH]; cbn; [done|].
  destruct (String.eqb k k'); [done|]. intros Ho. by rewrite IH.
Qed.

(** ** The properties *)

(** X1.  [broadcastMessage] changes nothing and sends, in registry order,
    one message to every registered connection whose socket is open and
    none to any other.  The copy of the connection passed as sender, and
    only that copy, is the message with [acknowledged: true] set. *)
Theorem broadcast_reaches_open_registered w message senderWs :
  reachable w →
  let plain := JObj message in
  let acknowledged := JObj (obj_set "acknowledged" (JBool true) message) in
  let copy k := if decide (senderWs = Some k) then acknowledged else plain in
  exec (broadcastMessage message senderWs) w
  = (w, map (λ k, Send k (copy k)) (open_clients w))
  ∧ (∀ k, k ∈ clients w → readyState (conn w k) = OPEN →
          received k (snd (exec (broadcastMessage message senderWs) w))
          = [copy k])
  ∧ (∀ k, k ∉ clients w ∨ readyState (conn w k) ≠ OPEN →
          received k (snd (exec (broadcastMessage message senderWs) w)) = []).
Proof.
  intros Hr plain acknowledged copy. apply reachable_wf in Hr.
  unfold exec. rewrite broadcastMessage_spec. cbn [snd].
  change (broadcast_copy message senderWs) with copy.
  split; [done|].
  split; intros k Hk.
  - intros Ho. rewrite received_broadcast by (by apply open_clients_NoDup).
    rewrite decide_True; [done|]. by apply list_elem_of_filter.
  - rewrite received_broadcast by (by apply open_clients_NoDup).
    rewrite decide_False; [done|].
    intros [? ?]%list_elem_of_filter. by destruct Hk.
Qed.

Lemma broadcast_reaches_open_registered_witness :
  reachable three_clients
  ∧ exec (broadcastMessage [("type", JStr "note")] (Some 1)) three_clients
    = (three_clients,
       [Send 0 (JObj [("type", JStr "note")]);
        Send 1 (JObj [("type", JStr "note"); ("acknowledged", JBool true)]);
        Send 2 (JObj [("type", JStr "note")])]).
Proof.
  split; [exact three_clients_reachable|].
  exact (proj1 (broadcast_reaches_open_registered three_clients
                  [("type", JStr "note")] (Some 1) three_clients_reachable)).
Defined.

(** X2.  When [broadcastMessage] is called with a sender that is
    registered and open, the sender receives one copy, whose
    [acknowledged] is [true] and which agrees with the message on every
    other property; when the message has no [acknowledged] property the
    copy is the message with that property added last.  Every other
    registered open connection receives the message itself. *)
Theorem acknowledged_copy_keeps_fields w (message : object) senderWs :
  reachable w →
  senderWs ∈ clients w →
  readyState (conn w senderWs) = OPEN →
  let out := snd (exec (broadcastMessage message (Some senderWs)) w) in
  ∃ copy,
    received senderWs out = [JObj copy]
    ∧ obj_get "acknowledged" copy = Some (JBool true)
    ∧ (∀ k, k ≠ "acknowledged" → obj_get k copy = obj_get k message)
    ∧ (obj_get "acknowledged" message = None →
       copy = message ++ [("acknowledged", JBool true)])
    ∧ (∀ h, h ∈ clients w → readyState (conn w h) = OPEN → h ≠ senderWs →
            received h out = [JObj message]).
Proof.
  intros Hr Hin Ho out. apply reachable_wf in Hr.
  exists (obj_set "acknowledged" (JBool true) message).
  subst out. unfold exec. rewrite broadcastMessage_spec. cbn [snd].
  split; [|split; [apply obj_get_set_eq|split; [|split; [apply obj_set_fresh|]]]].
  - rewrite received_broadcast by (by apply open_clients_NoDup).
    rewrite decide_True by (by apply list_elem_of_filter).
    unfold broadcast_copy. by rewrite decide_True.
  - intros k Hk. by apply obj_get_set_ne.
  - intros h Hh Hho Hne.
    rewrite received_broadcast by (by apply open_clients_NoDup).
    rewrite decide_True by (by apply list_elem_of_filter).
    unfold broadcast_copy. rewrite decide_False; [done|]. by intros [= ->].
Qed.

Lemma acknowledged_copy_keeps_fields_witness :
  reachable three_clients
  ∧ 1 ∈ clients three_clients
  ∧ readyState (conn three_clients 1) = OPEN
  ∧ ∃ copy,
      received 1
        (snd (exec (broadcastMessage
                      [("type", JStr "user_joined"); ("clientId", JNum 4)]
                      (Some 1)) three_clients))
      = [JObj copy]
      ∧ obj_get "acknowledged" copy = Some (JBool true).
Proof.
  assert (1 ∈ clients three_clients) as Hin by (vm_compute; right; left).
  split; [exact three_clients_reachable|]. split; [exact Hin|].
  split; [reflexivity|].
  destruct (acknowledged_copy_keeps_fields three_clients
              [("type", JStr "user_joined"); ("clientId", JNum 4)] 1
              three_clients_reachable Hin eq_refl)
    as (copy & Hc & Hack & _).
  exists copy. split; [exact Hc|exact Hack].
Defined.

(** X3.  A new connection gets the next free cell with an open socket,
    marked alive, and a record holding the next id, the peer address, the
    connection time and the display name [User_<id>]; the counter grows by
    one; no existing connection is touched, and the transport is asked
    for sends only. *)
Theorem connection_registers_default_record w clientIp now :
  reachable w →
  let w' := fst (step (EConnection clientIp now) w) in
  let out := snd (step (EConnection clientIp now) w) in
  let n := length (heap w) in
  conn w' n
  = mkConn OPEN (Some true)
      (mkClientInfo (S (clientCounter w)) n clientIp now
         ("User_" +:+ pretty (S (clientCounter w))) true)
  ∧ clientCounter w' = S (clientCounter w)
  ∧ clients w' = clients w ++ [n]
  ∧ (∀ h, h < n → conn w' h = conn w h)
  ∧ pinged out = []
  ∧ terminated out = [].
Proof.
  intros Hr w' out n. apply reachable_wf in Hr. subst w' out. cbn [step].
  rewrite on_connection_spec by done. cbn [fst snd].
  unfold accepted, conn. cbn [heap clients clientCounter].
  split; [by rewrite list_lookup_total_middle|].
  split; [done|]. split; [done|].
  split; [intros h Hh; by rewrite lookup_total_app_l|].
  split.
  - apply only_sends_pinged. cbn [forallb is_send andb].
    rewrite forallb_app, forallb_sends. done.
  - apply only_sends_terminated. cbn [forallb is_send andb].
    rewrite forallb_app, forallb_sends. done.
Qed.

Lemma connection_registers_default_record_witness :
  reachable three_clients
  ∧ conn (fst (step (EConnection "10.0.0.4" "t3") three_clients)) 3
    = mkConn OPEN (Some true)
        (mkClientInfo 4 3 "10.0.0.4" "t3" "User_4" true).
Proof.
  split; [exact three_clients_reachable|].
  exact (proj1 (connection_registers_default_record three_clients
                  "10.0.0.4" "t3" three_clients_reachable)).
Defined.

(** X4.  When a registered connection [h] is reported closed, it leaves
    the registry, its socket is [CLOSED], its record and every other
    connection are left as they were and the counter is not reused; one
    [user_left] notice with the current display name and the id of [h] is
    sent to every other registered open connection, and none to [h]. *)
Theorem disconnect_notifies_the_others w h now :
  reachable w →
  h ∈ clients w →
  let w' := fst (step (EClose h now) w) in
  let out := snd (step (EClose h now) w) in
  let notice := JObj [
    ("type", JStr "user_left");
    ("message", JStr (username (clientInfo (conn w h)) +:+ " left the chat"));
    ("clientId", JNum (Z.of_nat (id (clientInfo (conn w h)))));
    ("timestamp", JStr now)] in
  clients w' = filter (λ k, k ≠ h) (clients w)
  ∧ clientCounter w' = clientCounter w
  ∧ readyState (conn w' h) = CLOSED
  ∧ clientInfo (conn w' h) = clientInfo (conn w h)
  ∧ (∀ k, k ≠ h → conn w' k = conn w k)
  ∧ out = map (λ k, Send k notice) (filter (λ k, k ≠ h) (open_clients w))
  ∧ received h out = []
  ∧ (∀ k, k ∈ open_clients w → k ≠ h → received k out = [notice]).
Proof.
  intros Hr Hh w' out notice. apply reachable_wf in Hr.
  apply (wf_registered w h Hr) in Hh as Hn.
  subst w' out. rewrite step_close, decide_False by done. cbn [fst snd].
  rewrite open_clients_closed.
  assert (NoDup (filter (λ k, k ≠ h) (open_clients w))) as Hnd
    by (by apply NoDup_filter, open_clients_NoDup).
  split; [done|]. split; [done|].
  split.
  { rewrite conn_closed, decide_True; [done|]. split; [done|].
    by apply conn_in_range. }
  split; [apply clientInfo_closed|].
  split.
  { intros k Hk. rewrite conn_closed, decide_False; [done|]. intros [? _]. done. }
  split; [done|]. split.
  - rewrite (received_broadcast (λ _, notice)) by done.
    rewrite decide_False; [done|]. intros [? _]%list_elem_of_filter. done.
  - intros k Hk Hne. rewrite (received_broadcast (λ _, notice)) by done.
    rewrite decide_True; [done|]. by apply list_elem_of_filter.
Qed.

Lemma disconnect_notifies_the_others_witness :
  reachable three_clients
  ∧ 1 ∈ clients three_clients
  ∧ step (EClose 1 "t3") three_clients
    = (closed three_clients 1,
       [Send 0 (JObj [("type", JStr "user_left");
                      ("message", JStr "User_2 left the chat");
                      ("clientId", JNum 2); ("timestamp", JStr "t3")]);
        Send 2 (JObj [("type", JStr "user_left");
                      ("message", JStr "User_2 left the chat");
                      ("clientId", JNum 2); ("timestamp", JStr "t3")])])
  ∧ received 1 (snd (step (EClose 1 "t3") three_clients)) = [].
Proof.
  assert (1 ∈ clients three_clients) as Hh by (right; left).
  split; [exact three_clients_reachable|]. split; [exact Hh|].
  split; [reflexivity|].
  exact (proj1 (proj2 (proj2 (proj2 (proj2 (proj2 (proj2
    (disconnect_notifies_the_others three_clients 1 "t3"
       three_clients_reachable Hh)))))))).
Defined.

(** X5.  The application-level [ping] message is answered with exactly one
    [pong] to the sender; nothing else is sent, nothing changes, and in
    particular the liveness flag of the sender is not touched. *)
Theorem ping_answered_with_pong w a o now :
  readyState (conn w a) = OPEN →
  obj_get "type" o = Some (JStr "ping") →
  step (EMessage a (Parsed (JObj o)) now) w
  = (w, [Send a (JObj [("type", JStr "pong"); ("timestamp", JStr now)])])
  ∧ ws_isAlive (conn (fst (step (EMessage a (Parsed (JObj o)) now) w)) a)
    = ws_isAlive (conn w a).
Proof.
  intros Ha Hty. rewrite step_message by done.
  rewrite (on_message_ping a o now w Hty). done.
Qed.

Lemma ping_answered_with_pong_witness :
  readyState (conn three_clients 0) = OPEN
  ∧ step (EMessage 0 (Parsed (JObj [("type", JStr "ping")])) "t3") three_clients
    = (three_clients,
       [Send 0 (JObj [("type", JStr "pong"); ("timestamp", JStr "t3")])]).
Proof.
  split; [reflexivity|].
  exact (proj1 (ping_answered_with_pong three_clients 0
                  [("type", JStr "ping")] "t3" eq_refl eq_refl)).
Defined.

(** X6.  Any parsed payload other than [null] whose [type] is none of the
    five known strings (a missing or non-string [type], an unknown string,
    or a payload that is a number, a string, a boolean or an array) is
    echoed: the sender is sent one [echo] envelope holding the payload as
    it was parsed, and nothing changes. *)
Theorem unknown_type_echoed w a message now :
  readyState (conn w a) = OPEN →
  message ≠ JNull →
  known_type (type_of message) = false →
  step (EMessage a (Parsed message) now) w
  = (w, [Send a (JObj [("type", JStr "echo"); ("message", message);
                       ("timestamp", JStr now)])]).
Proof.
  intros Ha Hnull Hk. rewrite step_message by done.
  by apply on_message_echo.
Qed.

Lemma unknown_type_echoed_witness :
  readyState (conn three_clients 0) = OPEN
  ∧ step (EMessage 0 (Parsed (JArr [JNum 1; JStr "chat"])) "t3") three_clients
    = (three_clients,
       [Send 0 (JObj [("type", JStr "echo");
                      ("message", JArr [JNum 1; JStr "chat"]);
                      ("timestamp", JStr "t3")])])
  ∧ step (EMessage 0 (Parsed (JObj [("type", JStr "welcome");
                                    ("clientId", JNum 99)])) "t3")
         three_clients
    = (three_clients,
       [Send 0 (JObj [("type", JStr "echo");
                      ("message", JObj [("type", JStr "welcome");
                                        ("clientId", JNum 99)]);
                      ("timestamp", JStr "t3")])]).
Proof.
  split; [reflexivity|]. split.
  - apply (unknown_type_echoed three_clients 0 (JArr [JNum 1; JStr "chat"]) "t3");
      [reflexivity|discriminate|reflexivity].
  - apply (unknown_type_echoed three_clients 0
             (JObj [("type", JStr "welcome"); ("clientId", JNum 99)]) "t3");
      [reflexivity|discriminate|reflexivity].
Defined.

(** X7.  What handling a message, of whatever content, cannot do: it
    never changes the registry, the counter, or any socket's state or
    liveness flag; it never changes the record of a connection other than
    the sender, nor the sender's id, address or connection time; it never
    probes or terminates.  If the world changes at all, the message is a
    [set_username] with a non-blank string and the change is the rename
    of the sender. *)
Theorem message_changes_only_sender_name w a data now :
  let w' := fst (step (EMessage a data now) w) in
  let out := snd (step (EMessage a data now) w) in
  clients w' = clients w
  ∧ clientCounter w' = clientCounter w
  ∧ (∀ h, h ≠ a → conn w' h = conn w h)
  ∧ (∀ h, readyState (conn w' h) = readyState (conn w h)
          ∧ ws_isAlive (conn w' h) = ws_isAlive (conn w h)
          ∧ id (clientInfo (conn w' h)) = id (clientInfo (conn w h))
          ∧ ip (clientInfo (conn w' h)) = ip (clientInfo (conn w h))
          ∧ connectedAt (clientInfo (conn w' h))
            = connectedAt (clientInfo (conn w h)))
  ∧ pinged out = []
  ∧ terminated out = []
  ∧ (w' ≠ w →
     ∃ o u, data = Parsed (JObj o)
            ∧ obj_get "type" o = Some (JStr "set_username")
            ∧ obj_get "username" o = Some (JStr u)
            ∧ trim u ≠ ""
            ∧ w' = renamed w a (trim u)).
Proof.
  intros w' out. subst w' out. cbn [step].
  destruct (decide (readyState (conn w a) = OPEN)) as [Ha|Ha];
    [|cbn [fst snd]; repeat split; done].
  destruct (on_message_effect a data now w) as [Hs [Hw|(o & u & Hd & Hty & Hu & Ht & Hw)]];
    rewrite Hw.
  - repeat split; try done.
    + by apply only_sends_pinged.
    + by apply only_sends_terminated.
  - split; [done|]. split; [done|]. split; [|split].
    + intros h Hh. rewrite conn_renamed, decide_False; [done|]. by intros [? _].
    + intros h. rewrite conn_renamed. case_decide as Hc; [|done].
      destruct Hc as [-> _]. done.
    + split; [by apply only_sends_pinged|].
      split; [by apply only_sends_terminated|].
      intros _. by exists o, u.
Qed.

Lemma message_changes_only_sender_name_witness :
  terminated
    (snd (step (EMessage 1
                  (Parsed (JObj [("type", JStr "set_username");
                                 ("username", JStr (nbsp +:+ "Ada" +:+ em_space))])) "t3")
               three_clients)) = []
  ∧ conn (fst (step (EMessage 1
                       (Parsed (JObj [("type", JStr "set_username");
                                      ("username", JStr (nbsp +:+ "Ada" +:+ em_space))])) "t3")
                    three_clients)) 2
    = conn three_clients 2.
Proof.
  split.
  - exact (proj1 (proj2 (proj2 (proj2 (proj2 (proj2
      (message_changes_only_sender_name three_clients 1
         (Parsed (JObj [("type", JStr "set_username");
                        ("username", JStr (nbsp +:+ "Ada" +:+ em_space))])) "t3"))))))).
  - apply (proj1 (proj2 (proj2
      (message_changes_only_sender_name three_clients 1
         (Parsed (JObj [("type", JStr "set_username");
                        ("username", JStr (nbsp +:+ "Ada" +:+ em_space))])) "t3")))).
    lia.
Defined.

(** X8.  The private-message route compares ids with [===]: a target id
    that is truthy but not a number (a string of digits, [true], an array,
    an object) matches no connection, so nothing is delivered and nothing
    changes.  The sender is sent the not-found error naming the target as
    a template literal prints it, or the invalid-format error when it
    cannot be printed. *)
Theorem private_message_target_must_be_number w a o target text now :
  readyState (conn w a) = OPEN →
  obj_get "type" o = Some (JStr "private_message") →
  obj_get "targetClientId" o = Some target →
  obj_get "text" o = Some text →
  truthy (Some target) = true →
  truthy (Some text) = true →
  (∀ z, target ≠ JNum z) →
  (∀ printed, js_toString target = Ok printed →
     step (EMessage a (Parsed (JObj o)) now) w
     = (w, [Send a (JObj [
              ("type", JStr "error");
              ("message", JStr ("Target client " +:+ printed
                                +:+ " not found"));
              ("timestamp", JStr now)])]))
  ∧ (js_toString target = Throw →
     step (EMessage a (Parsed (JObj o)) now) w
     = (w, [Send a (JObj [
              ("type", JStr "error");
              ("message", JStr "Invalid message format. Expected JSON.");
              ("timestamp", JStr now)])])).
Proof.
  intros Ha Hty Htarget Htext Tt Tx Hnum. rewrite step_message by done.
  rewrite (on_message_private a o target text now w Hty Htarget Htext Tt Tx).
  rewrite lookup_target_absent by (intros h _; apply Hnum).
  split; [intros printed Hp|intros Hp]; by rewrite Hp.
Qed.

Lemma private_message_target_must_be_number_witness :
  readyState (conn three_clients 0) = OPEN
  ∧ id (clientInfo (conn three_clients 1)) = 2
  ∧ step (EMessage 0
            (Parsed (JObj [("type", JStr "private_message");
                           ("targetClientId", JStr "2"); ("text", JStr "x")]))
            "t3") three_clients
    = (three_clients,
       [Send 0 (JObj [("type", JStr "error");
                      ("message", JStr "Target client 2 not found");
                      ("timestamp", JStr "t3")])])
  ∧ step (EMessage 0
            (Parsed (JObj [("type", JStr "private_message");
                           ("targetClientId", JObj [("toString", JNum 1)]);
                           ("text", JStr "x")]))
            "t3") three_clients
    = (three_clients,
       [Send 0 (JObj [("type", JStr "error");
                      ("message", JStr "Invalid message format. Expected JSON.");
                      ("timestamp", JStr "t3")])]).
Proof.
  split; [reflexivity|]. split; [reflexivity|]. split.
  - exact (proj1 (private_message_target_must_be_number three_clients 0
             [("type", JStr "private_message");
              ("targetClientId", JStr "2"); ("text", JStr "x")]
             (JStr "2") (JStr "x") "t3"
             eq_refl eq_refl eq_refl eq_refl eq_refl eq_refl
             (λ z, ltac:(discriminate))) "2" eq_refl).
  - exact (proj2 (private_message_target_must_be_number three_clients 0
             [("type", JStr "private_message");
              ("targetClientId", JObj [("toString", JNum 1)]);
              ("text", JStr "x")]
             (JObj [("toString", JNum 1)]) (JStr "x") "t3"
             eq_refl eq_refl eq_refl eq_refl eq_refl eq_refl
             (λ z, ltac:(discriminate))) eq_refl).
Defined.

(** X9.  The user list of a [get_users] reply is in order of arrival, so
    its ids increase strictly, and it holds the entry of the requester. *)
Theorem user_list_in_id_order w a o now :
  reachable w →
  readyState (conn w a) = OPEN →
  obj_get "type" o = Some (JStr "get_users") →
  let users := map (λ k, user_entry (clientInfo (conn w k))) (clients w) in
  snd (step (EMessage a (Parsed (JObj o)) now) w)
  = [Send a (JObj [
       ("type", JStr "user_list");
       ("users", JArr users);
       ("totalUsers", JNum (Z.of_nat (length (clients w))));
       ("timestamp", JStr now)])]
  ∧ StronglySorted lt (map (λ k, id (clientInfo (conn w k))) (clients w))
  ∧ user_entry (clientInfo (conn w a)) ∈ users.
Proof.
  intros Hr Ha Hty users. apply reachable_wf in Hr.
  rewrite step_message by done.
  rewrite (on_message_get_users a o now w Hty).
  split; [reflexivity|]. split; [by apply registered_ids_sorted|].
  apply list_elem_of_In.
  apply (in_map (λ k, user_entry (clientInfo (conn w k)))), list_elem_of_In.
  apply (wf_registered w a Hr). by rewrite Ha.
Qed.

Lemma user_list_in_id_order_witness :
  reachable three_clients
  ∧ readyState (conn three_clients 2) = OPEN
  ∧ StronglySorted lt
      (map (λ k, id (clientInfo (conn three_clients k))) (clients three_clients)).
Proof.
  split; [exact three_clients_reachable|]. split; [reflexivity|].
  exact (proj1 (proj2
    (user_list_in_id_order three_clients 2 [("type", JStr "get_users")] "t3"
       three_clients_reachable eq_refl eq_refl))).
Defined.

(** X10.  Whatever events arrive, in whatever order, the counter equals
    the number of connections accepted so far, and the ids the server has
    announced in welcome messages are 1, 2, ..., one per connection: no
    client message, disconnection or tick makes the server send a welcome
    or skip or repeat an id. *)
Theorem welcome_ids_any_run es :
  clientCounter (run es initial) = connections es
  ∧ length (heap (run es initial)) = connections es
  ∧ assigned_ids es = map Z.of_nat (seq 1 (connections es)).
Proof.
  pose proof (run_heap_length es initial wf_initial) as Hl. cbn in Hl.
  split; [|split; [done|]].
  - rewrite (wf_counter _ (run_wf es initial wf_initial)). done.
  - unfold assigned_ids. by rewrite trace_welcome_ids_any by apply wf_initial.
Qed.

Lemma welcome_ids_any_run_witness :
  assigned_ids
    [EConnection "10.0.0.1" "t0";
     EMessage 0 (Parsed (JObj [("type", JStr "welcome"); ("clientId", JNum 7)]))
       "t1";
     EHeartbeat; EConnection "10.0.0.2" "t2"; EClose 0 "t3";
     EConnection "10.0.0.3" "t4"]
  = [1; 2; 3]%Z.
Proof.
  exact (proj2 (proj2 (welcome_ids_any_run
    [EConnection "10.0.0.1" "t0";
     EMessage 0 (Parsed (JObj [("type", JStr "welcome"); ("clientId", JNum 7)]))
       "t1";
     EHeartbeat; EConnection "10.0.0.2" "t2"; EClose 0 "t3";
     EConnection "10.0.0.3" "t4"]))).
Defined.

(** X11.  Whatever events arrive, the registry holds, in order of arrival,
    exactly the connections whose socket is not [CLOSED]; its size is the
    number of such sockets; and the connection accepted as the [h+1]-th
    keeps the id [h+1] for good. *)
Theorem registry_tracks_unclosed_sockets es :
  let w := run es initial in
  clients w
  = filter (λ h, readyState (conn w h) ≠ CLOSED) (seq 0 (connections es))
  ∧ length (clients w)
    = length (filter (λ c, readyState c ≠ CLOSED) (heap w))
  ∧ (∀ h, h < connections es →
          id (clientInfo (conn w h)) = S h ∧ ws (clientInfo (conn w h)) = h).
Proof.
  intros w. assert (wf w) as Hw by (apply run_wf, wf_initial).
  pose proof (run_heap_length es initial wf_initial) as Hl. cbn in Hl.
  fold w in Hl.
  split; [by rewrite <- Hl; apply wf_clients|]. split.
  - rewrite (wf_clients w Hw).
    exact (filter_index_length (λ c, readyState c ≠ CLOSED) (heap w)).
  - intros h Hh. apply (wf_ids w Hw). unfold conn.
    apply list_lookup_lookup_total_lt. lia.
Qed.

Lemma registry_tracks_unclosed_sockets_witness :
  1 < connections
        [EConnection "10.0.0.1" "t0"; EHeartbeat; EConnection "10.0.0.2" "t1";
         EHeartbeat; EClose 0 "t2"]
  ∧ id (clientInfo (conn
      (run [EConnection "10.0.0.1" "t0"; EHeartbeat;
            EConnection "10.0.0.2" "t1"; EHeartbeat; EClose 0 "t2"] initial)
      1)) = 2.
Proof.
  assert (1 < connections
        [EConnection "10.0.0.1" "t0"; EHeartbeat; EConnection "10.0.0.2" "t1";
         EHeartbeat; EClose 0 "t2"]) as Hh by (vm_compute; lia).
  split; [exact Hh|].
  exact (proj1 (proj2 (proj2 (registry_tracks_unclosed_sockets
    [EConnection "10.0.0.1" "t0"; EHeartbeat; EConnection "10.0.0.2" "t1";
     EHeartbeat; EClose 0 "t2"])) 1 Hh)).
Defined.

(** X12.  Whatever events arrive, the display name of every connection is
    non-empty, and it is either the generated default [User_<id>] or a
    name that [trim] leaves as it is: one without white space, of any
    kind that [String.prototype.trim] strips, at either end. *)
Theorem display_names_well_formed es h :
  h < length (heap (run es initial)) →
  let name := username (clientInfo (conn (run es initial) h)) in
  name ≠ ""
  ∧ (name = "User_" +:+ pretty (id (clientInfo (conn (run es initial) h)))
     ∨ trim name = name).
Proof.
  intros Hh name.
  pose proof (run_well_named es initial wf_initial (List.Forall_nil _)) as Hn.
  rewrite Forall_forall in Hn. apply Hn.
  apply list_elem_of_lookup. exists h. unfold conn.
  by apply list_lookup_lookup_total_lt.
Qed.

Lemma display_names_well_formed_witness :
  1 < length (heap (run [EConnection "10.0.0.1" "t0";
                         EConnection "10.0.0.2" "t1";
                         EMessage 1 (Parsed (JObj [("type", JStr "set_username");
                                                   ("username", JStr (nbsp +:+ "Ada" +:+ em_space))]))
                           "t2"] initial))
  ∧ username (clientInfo (conn
      (run [EConnection "10.0.0.1" "t0";
            EConnection "10.0.0.2" "t1";
            EMessage 1 (Parsed (JObj [("type", JStr "set_username");
                                      ("username", JStr (nbsp +:+ "Ada" +:+ em_space))])) "t2"]
           initial) 1)) ≠ "".
Proof.
  assert (1 < length (heap (run [EConnection "10.0.0.1" "t0";
                         EConnection "10.0.0.2" "t1";
                         EMessage 1 (Parsed (JObj [("type", JStr "set_username");
                                                   ("username", JStr (nbsp +:+ "Ada" +:+ em_space))]))
                           "t2"] initial))) as Hh by (vm_compute; lia).
  split; [exact Hh|].
  exact (proj1 (display_names_well_formed _ 1 Hh)).
Defined.

(** X13.  A connection that is open and alive and answers every probe
    before the next tick is never terminated and stays registered and
    open, whatever else happens in between (connections, messages,
    disconnections and acknowledgments of others, errors). *)
Theorem responsive_never_evicted w h es :
  reachable w →
  readyState (conn w h) = OPEN →
  ws_isAlive (conn w h) = Some true →
  responsive h false es = true →
  occurrences h (terminated (trace es w)) = 0
  ∧ readyState (conn (run es w) h) = OPEN
  ∧ h ∈ clients (run es w).
Proof.
  intros Hr Ho Ha Hes. apply reachable_wf in Hr.
  apply (responsive_safe h es w false); try done.
  intros _. by rewrite Ha.
Qed.

Lemma responsive_never_evicted_witness :
  reachable three_clients
  ∧ responsive 1 false
      [EHeartbeat; EPong 1; EMessage 0 chat_hi "t3"; EHeartbeat; EPong 0;
       EPong 1; EHeartbeat] = true
  ∧ readyState (conn (run [EHeartbeat; EPong 1; EMessage 0 chat_hi "t3";
                           EHeartbeat; EPong 0; EPong 1; EHeartbeat]
                          three_clients) 1) = OPEN.
Proof.
  split; [exact three_clients_reachable|]. split; [reflexivity|].
  exact (proj1 (proj2
    (responsive_never_evicted three_clients 1
       [EHeartbeat; EPong 1; EMessage 0 chat_hi "t3"; EHeartbeat; EPong 0;
        EPong 1; EHeartbeat]
       three_clients_reachable eq_refl eq_refl eq_refl))).
Defined.

(** X14.  A registered connection that is pending stays pending and
    registered through any number of ticks without acknowledgment or
    close event: each of the [n] ticks calls [terminate] on it once and
    none probes it. *)
Theorem unanswered_ticks_terminate_each_time w k n :
  reachable w →
  k ∈ clients w →
  ws_isAlive (conn w k) = Some false →
  occurrences k (terminated (trace (replicate n EHeartbeat) w)) = n
  ∧ occurrences k (pinged (trace (replicate n EHeartbeat) w)) = 0
  ∧ k ∈ clients (run (replicate n EHeartbeat) w)
  ∧ ws_isAlive (conn (run (replicate n EHeartbeat) w) k) = Some false.
Proof.
  intros Hr Hk Ha. apply reachable_wf in Hr.
  revert w Hr Hk Ha. induction n as [|n IH]; intros w Hw Hk Ha; [done|].
  cbn [replicate trace run].
  destruct (tick_pending w k Hw Hk Ha) as (_ & Hk1 & Ht1 & Hp1).
  assert (ws_isAlive (conn (fst (step EHeartbeat w)) k) = Some false) as Ha1.
  { rewrite step_heartbeat by done. cbn [fst].
    rewrite conn_beaten, decide_True by done. unfold beat.
    rewrite bool_decide_eq_true_2 by done. by destruct (decide _). }
  destruct (IH _ (step_wf EHeartbeat w Hw) Hk1 Ha1) as (Ht & Hp & Hin & Hal).
  rewrite terminated_app, pinged_app, !occurrences_app, Ht1, Hp1, Ht, Hp.
  done.
Qed.

Lemma unanswered_ticks_terminate_each_time_witness :
  reachable (run [EHeartbeat] three_clients)
  ∧ 2 ∈ clients (run [EHeartbeat] three_clients)
  ∧ ws_isAlive (conn (run [EHeartbeat] three_clients) 2) = Some false
  ∧ occurrences 2
      (terminated (trace (replicate 3 EHeartbeat)
                     (run [EHeartbeat] three_clients))) = 3.
Proof.
  assert (reachable (run [EHeartbeat] three_clients)) as Hr
    by (exists [EConnection "10.0.0.1" "t0"; EConnection "10.0.0.2" "t1";
                EConnection "10.0.0.3" "t2"; EHeartbeat]; reflexivity).
  assert (2 ∈ clients (run [EHeartbeat] three_clients)) as Hk
    by (right; right; left).
  split; [exact Hr|]. split; [exact Hk|]. split; [reflexivity|].
  exact (proj1 (unanswered_ticks_terminate_each_time
                  (run [EHeartbeat] three_clients) 2 3 Hr Hk eq_refl)).
Defined.

(** X15.  A rename is seen by everything that follows: after connection
    [a] took the name [u], its chat messages carry the trimmed [u] (and
    its unchanged id), and when it disconnects the leave notice names the
    trimmed [u]. *)
Theorem rename_visible_afterwards w a o u now :
  reachable w →
  readyState (conn w a) = OPEN →
  obj_get "type" o = Some (JStr "set_username") →
  obj_get "username" o = Some (JStr u) →
  trim u ≠ "" →
  let w1 := fst (step (EMessage a (Parsed (JObj o)) now) w) in
  (∀ o' t now',
     obj_get "type" o' = Some (JStr "chat") →
     obj_get "text" o' = Some (JStr t) →
     trim t ≠ "" →
     snd (step (EMessage a (Parsed (JObj o')) now') w1)
     = map (λ k, Send k (JObj [
         ("type", JStr "chat");
         ("username", JStr (trim u));
         ("clientId", JNum (Z.of_nat (id (clientInfo (conn w a)))));
         ("text", JStr t);
         ("timestamp", JStr now')])) (open_clients w))
  ∧ (∀ now',
       snd (step (EClose a now') w1)
       = map (λ k, Send k (JObj [
           ("type", JStr "user_left");
           ("message", JStr (trim u +:+ " left the chat"));
           ("clientId", JNum (Z.of_nat (id (clientInfo (conn w a)))));
           ("timestamp", JStr now')]))
           (filter (λ k, k ≠ a) (open_clients w))).
Proof.
  intros Hr Ha Hty Hu Ht w1. apply reachable_wf in Hr.
  assert (w1 = renamed w a (trim u)) as Hw1.
  { subst w1. rewrite step_message by done.
    by rewrite (on_message_set_username a o u now w Ha Hty Hu Ht). }
  assert (conn w1 a = set_username (trim u) (conn w a)) as Hc.
  { rewrite Hw1, conn_renamed, decide_True; [done|]. split; [done|].
    apply conn_in_range. by rewrite Ha. }
  assert (readyState (conn w1 a) = OPEN) as Ha1 by (by rewrite Hc).
  split.
  - intros o' t now' Hty' Htext' Ht'. rewrite step_message by done.
    rewrite (on_message_chat a o' t now' w1 Hty' Htext' Ht'). cbn [snd].
    unfold chat_message. rewrite Hc. cbn [set_username clientInfo username id].
    rewrite Hw1, open_clients_renamed. done.
  - intros now'. rewrite step_close, decide_False by (by rewrite Ha1).
    cbn [snd]. rewrite Hc. cbn [set_username clientInfo username id].
    rewrite open_clients_closed, Hw1, open_clients_renamed. done.
Qed.

Lemma rename_visible_afterwards_witness :
  reachable three_clients
  ∧ readyState (conn three_clients 1) = OPEN
  ∧ snd (step (EClose 1 "t4")
           (fst (step (EMessage 1
                         (Parsed (JObj [("type", JStr "set_username");
                                        ("username", JStr (nbsp +:+ "Ada" +:+ em_space))])) "t3")
                      three_clients)))
    = [Send 0 (JObj [("type", JStr "user_left");
                     ("message", JStr "Ada left the chat");
                     ("clientId", JNum 2); ("timestamp", JStr "t4")]);
       Send 2 (JObj [("type", JStr "user_left");
                     ("message", JStr "Ada left the chat");
                     ("clientId", JNum 2); ("timestamp", JStr "t4")])].
Proof.
  split; [exact three_clients_reachable|]. split; [reflexivity|].
  refine (proj2
    (rename_visible_afterwards three_clients 1
       [("type", JStr "set_username"); ("username", JStr (nbsp +:+ "Ada" +:+ em_space))] (nbsp +:+ "Ada" +:+ em_space) "t3"
       three_clients_reachable eq_refl eq_refl eq_refl _) "t4").
  vm_compute. discriminate.
Defined.

(** X16.  Once a tick has terminated a pending connection, and until the
    transport reports it closed, the connection is still in the registry
    (and counted by [get_users]) but no broadcast is sent to it. *)
Theorem terminated_connection_skipped_by_broadcasts w k message senderWs :
  reachable w →
  k ∈ clients w →
  ws_isAlive (conn w k) = Some false →
  let w' := fst (step EHeartbeat w) in
  k ∈ clients w'
  ∧ length (clients w') = length (clients w)
  ∧ (k ∉ open_clients w')
  ∧ received k (snd (exec (broadcastMessage message senderWs) w')) = [].
Proof.
  intros Hr Hk Ha w'. apply reachable_wf in Hr.
  destruct (tick_pending w k Hr Hk Ha) as (Hc & Hk' & _ & _).
  fold w' in Hc, Hk'.
  assert (k ∉ open_clients w') as Hno.
  { intros [Ho _]%list_elem_of_filter. by rewrite Hc in Ho. }
  split; [done|]. split.
  { subst w'. by rewrite step_heartbeat by done. }
  split; [done|].
  unfold exec. rewrite broadcastMessage_spec. cbn [snd].
  rewrite received_broadcast
    by (apply open_clients_NoDup; subst w'; by apply step_wf).
  by rewrite decide_False.
Qed.

Lemma terminated_connection_skipped_by_broadcasts_witness :
  reachable (run [EHeartbeat] three_clients)
  ∧ 2 ∈ clients (run [EHeartbeat] three_clients)
  ∧ ws_isAlive (conn (run [EHeartbeat] three_clients) 2) = Some false
  ∧ 2 ∉ open_clients (fst (step EHeartbeat (run [EHeartbeat] three_clients))).
Proof.
  assert (reachable (run [EHeartbeat] three_clients)) as Hr
    by (exists [EConnection "10.0.0.1" "t0"; EConnection "10.0.0.2" "t1";
                EConnection "10.0.0.3" "t2"; EHeartbeat]; reflexivity).
  assert (2 ∈ clients (run [EHeartbeat] three_clients)) as Hk
    by (right; right; left).
  split; [exact Hr|]. split; [exact Hk|]. split; [reflexivity|].
  exact (proj1 (proj2 (proj2
    (terminated_connection_skipped_by_broadcasts
       (run [EHeartbeat] three_clients) 2 [] None Hr Hk eq_refl)))).
Defined.
